(** * helper_functions.py: spectrum and plotting helpers

    A shallow embedding of [helpers/helper_functions.py] and of the parts of
    numpy and matplotlib that it calls.

    Numbers.  A float64 is idealised as a real number or one of the IEEE
    special values inf, -inf and nan, which numpy produces (with a warning,
    never an exception) for division by zero and for the logarithm of zero.
    Rounding is not modelled.  A complex128 with finite parts is a pair of
    reals.

    Errors.  A Python exception is a value of [exn]; a call that can raise
    returns [result].

    Rendering.  matplotlib is modelled by the list of calls made on it, in
    the order they are made; a call that raises leaves the list as it was. *)

From Stdlib Require Import String Reals Lra Lia ZArith Arith Bool List.
Import ListNotations.

(** ** Exceptions and results *)

Inductive exn : Type :=
| ValueError
| IndexError.

Inductive result (A : Type) : Type :=
| Ok (a : A)
| Raise (e : exn).

Arguments Ok {A} a.
Arguments Raise {A} e.

Definition raises {A : Type} (r : result A) : Prop :=
  exists e, r = Raise e.

(** ** Numbers *)

Record complex : Type := Cx { re : R; im : R }.

Inductive float64 : Type :=
| Fin (r : R)
| PInf
| NInf
| NaN.

(** The base-10 logarithm of a positive real. *)
Definition Rlog10 (r : R) : R := (ln r / ln 10)%R.

Module Cplx.
Local Open Scope R_scope.

Definition zero : complex := Cx 0 0.

Definition of_real (r : R) : complex := Cx r 0.

Definition add (a b : complex) : complex :=
  Cx (re a + re b) (im a + im b).

Definition mul (a b : complex) : complex :=
  Cx (re a * re b - im a * im b) (re a * im b + im a * re b).

(** [c * z] for a real [c]. *)
Definition scale (c : R) (z : complex) : complex :=
  Cx (c * re z) (c * im z).

(** exp(i t) = cos t + i sin t. *)
Definition expi (t : R) : complex := Cx (cos t) (sin t).

Definition modulus (z : complex) : R :=
  sqrt (re z * re z + im z * im z).

(** The sum of [f 0], ..., [f (n-1)]. *)
Definition sum (n : nat) (f : nat -> complex) : complex :=
  fold_right add zero (map f (seq 0 n)).

End Cplx.

(** ** numpy

    The functions of numpy that [find_fft] and [plot_response] call, after
    numpy's reference: what each returns, and when it raises.  Arrays are
    lists; samples and transform bins have finite parts. *)

Module np.
Local Open Scope R_scope.

(** [abs(a)] on a complex array: the element-wise modulus. *)
Definition abs (a : list complex) : list float64 :=
  map (fun z => Fin (Cplx.modulus z)) a.

(** One element of [a / d], for a float [a] and a Python int [d >= 0]
    (here always a [len]).  Division by zero gives inf, -inf or nan. *)
Definition true_divide (x : float64) (d : nat) : float64 :=
  match x, d with
  | NaN, _ => NaN
  | PInf, _ => PInf
  | NInf, _ => NInf
  | Fin r, O =>
      if Rlt_dec 0 r then PInf
      else if Rlt_dec r 0 then NInf
      else NaN
  | Fin r, S _ => Fin (r / INR d)
  end.

(** [a / d], element-wise. *)
Definition divide (a : list float64) (d : nat) : list float64 :=
  map (fun x => true_divide x d) a.

(** One element of [np.log10]: the base-10 logarithm, -inf at 0, nan below 0. *)
Definition log10_1 (x : float64) : float64 :=
  match x with
  | Fin r =>
      if Rlt_dec 0 r then Fin (Rlog10 r)
      else if Rlt_dec r 0 then NaN
      else NInf
  | PInf => PInf
  | NInf => NaN
  | NaN => NaN
  end.

Definition log10 (a : list float64) : list float64 := map log10_1 a.

(** One element of [k * a] for a finite constant [k]. *)
Definition times_1 (k : R) (x : float64) : float64 :=
  match x with
  | Fin r => Fin (k * r)
  | PInf => if Rlt_dec 0 k then PInf else if Rlt_dec k 0 then NInf else NaN
  | NInf => if Rlt_dec 0 k then NInf else if Rlt_dec k 0 then PInf else NaN
  | NaN => NaN
  end.

(** [k * a], element-wise. *)
Definition times (k : R) (a : list float64) : list float64 :=
  map (times_1 k) a.

(** One element of [a + b]. *)
Definition add_1 (x y : float64) : float64 :=
  match x, y with
  | NaN, _ | _, NaN => NaN
  | PInf, NInf | NInf, PInf => NaN
  | PInf, _ | _, PInf => PInf
  | NInf, _ | _, NInf => NInf
  | Fin a, Fin b => Fin (a + b)
  end.

(** The order of float64: -inf below every real, inf above, nan unordered. *)
Definition lt (x y : float64) : Prop :=
  match x, y with
  | NaN, _ | _, NaN => False
  | _, NInf => False
  | PInf, _ => False
  | NInf, _ => True
  | Fin _, PInf => True
  | Fin a, Fin b => a < b
  end.

Module fft.

(** The factor exp(-2 pi i j k / n) of the discrete Fourier transform. *)
Definition twiddle (n j k : nat) : complex :=
  Cplx.expi (- (2 * PI * INR (j * k) / INR n)).

(** Bin [k] of the transform of [a], whose length is the transform size:
    A_k = sum_{j < n} a_j exp(-2 pi i j k / n). *)
Definition bin (a : list complex) (k : nat) : complex :=
  Cplx.sum (length a)
    (fun j => Cplx.mul (nth j a Cplx.zero) (twiddle (length a) j k)).

(** The transform of an array at its own length. *)
Definition dft (a : list complex) : list complex :=
  map (bin a) (seq 0 (length a)).

(** [z[0:len(a)] = a] on a list [z] at least as long as [a]. *)
Definition assign_prefix (z a : list complex) : list complex :=
  a ++ skipn (length a) z.

(** The input brought to [n] points as numpy does before transforming:
    cropped to [a[0:n]] when longer, copied into [zeros(n)] when shorter. *)
Definition fit (a : list complex) (n : nat) : list complex :=
  if Nat.eqb (length a) n then a
  else if Nat.ltb n (length a) then firstn n a
  else assign_prefix (repeat Cplx.zero n) a.

(** [np.fft.fft(a, n)]: ValueError when [n < 1], else the [n]-point
    transform of the cropped or zero-padded input. *)
Definition fft (a : list complex) (n : Z) : result (list complex) :=
  if (n <? 1)%Z then Raise ValueError
  else Ok (dft (fit a (Z.to_nat n))).

(** [np.fft.fft(a)], the size left out: it is the length of [a]. *)
Definition fft_default (a : list complex) : result (list complex) :=
  fft a (Z.of_nat (length a)).

(** [np.roll(a, s)] for [0 <= s <= len(a)]: element [i] moves to [i + s],
    wrapping around. *)
Definition roll (a : list complex) (s : nat) : list complex :=
  skipn (length a - s) a ++ firstn (length a - s) a.

(** [np.fft.fftshift(a)]: a roll by [len(a) // 2]. *)
Definition fftshift (a : list complex) : list complex :=
  roll a (length a / 2).

End fft.

End np.

(** ** find_fft *)

(** [find_fft(signal, n_window)]:
      fft = np.fft.fftshift(np.fft.fft(signal, n_window))
      return 10*np.log10(abs(fft)/len(signal)) *)
Definition find_fft (signal : list complex) (n_window : Z)
  : result (list float64) :=
  match np.fft.fft signal n_window with
  | Raise e => Raise e
  | Ok spectrum =>
      let fft := np.fft.fftshift spectrum in
      Ok (np.times 10 (np.log10 (np.divide (np.abs fft) (length signal))))
  end.

(** ** matplotlib *)

Module plt.

(** How [ax.plot] draws: the default solid line, or
    ['green', linestyle='--', linewidth=2.5]. *)
Inductive style : Type :=
| solid
| green_dashed.

(** The calls the helpers make on the figure and its axes. *)
Inductive call : Type :=
| figure (figsize : option (Z * Z))
| gca
| add_subplot (pos : Z)
| set_xlabel (s : string)
| set_ylabel (s : string)
| grid (on : bool)
| set_xlim (lo hi : R)
| set_ylim (lo hi : R)
| set_title (s : string)
| plot (x y : list float64) (fmt : style)
| stem (x y : list float64)
| show.

(** A computation that makes calls on the renderer and may raise. *)
Definition M (A : Type) : Type := list call -> list call * result A.

Definition ret {A : Type} (a : A) : M A := fun log => (log, Ok a).

Definition raise {A : Type} (e : exn) : M A := fun log => (log, Raise e).

Definition bind {A B : Type} (m : M A) (k : A -> M B) : M B :=
  fun log =>
    match m log with
    | (log', Ok a) => k a log'
    | (log', Raise e) => (log', Raise e)
    end.

Definition emit (c : call) : M unit := fun log => (log ++ [c], Ok tt).

(** [l[i]] for [i >= 0]: IndexError past the end. *)
Definition getitem {A : Type} (l : list A) (i : nat) : M A :=
  match nth_error l i with
  | Some a => ret a
  | None => raise IndexError
  end.

(** [for i in l: body(i)]; an exception ends the loop. *)
Fixpoint for_each {A : Type} (l : list A) (body : A -> M unit) : M unit :=
  match l with
  | [] => ret tt
  | i :: rest => bind (body i) (fun _ => for_each rest body)
  end.

(** [for i in range(n): body(i)]. *)
Definition for_range (n : nat) (body : nat -> M unit) : M unit :=
  for_each (seq 0 n) body.

(** [ax.plot(x, y, ...)]: ValueError when [x] and [y] differ in length. *)
Definition ax_plot (x y : list float64) (fmt : style) : M unit :=
  if Nat.eqb (length x) (length y) then emit (plot x y fmt)
  else raise ValueError.

(** [ax.stem(x, y, ...)]: ValueError when [x] and [y] differ in length. *)
Definition ax_stem (x y : list float64) : M unit :=
  if Nat.eqb (length x) (length y) then emit (stem x y)
  else raise ValueError.

(** The calls made and the outcome, from a renderer with no call yet. *)
Definition run {A : Type} (m : M A) : list call * result A := m [].

End plt.

Declare Scope plt_scope.
Delimit Scope plt_scope with plt.
Notation "x <- m ;; k" := (plt.bind m (fun x => k))
  (at level 61, m at next level, right associativity) : plt_scope.
Notation "m ;; k" := (plt.bind m (fun _ => k))
  (at level 61, right associativity) : plt_scope.

(** ** plot_timeseries *)

(** The default of the parameter [line]. *)
Definition line_default : list string := ["continuous"%string].

(** The body of the loop of [plot_timeseries], at index [i]: the series is
    drawn as its tag says, and not at all when the tag is none of the three. *)
Definition draw_series (x y : list (list float64)) (line : list string)
  (i : nat) : plt.M unit :=
  (l0 <- plt.getitem line i ;;
   if String.eqb l0 "continuous" then
     xi <- plt.getitem x i ;;
     yi <- plt.getitem y i ;;
     plt.ax_plot xi yi plt.solid
   else
     l1 <- plt.getitem line i ;;
     if String.eqb l1 "discrete" then
       xi <- plt.getitem x i ;;
       yi <- plt.getitem y i ;;
       plt.ax_stem xi yi
     else
       l2 <- plt.getitem line i ;;
       if String.eqb l2 "dash" then
         xi <- plt.getitem x i ;;
         yi <- plt.getitem y i ;;
         plt.ax_plot xi yi plt.green_dashed
       else plt.ret tt)%plt.

(** What [plot_timeseries] sets up before it draws. *)
Definition timeseries_axes (title : string) : list plt.call :=
  [plt.figure (Some (10, 4)%Z); plt.gca; plt.set_xlabel "Time (s)";
   plt.set_ylabel "Amplitude"; plt.grid true;
   plt.set_ylim (-12 / 10) (12 / 10); plt.set_title title].

(** [plot_timeseries(title, x, y, line)]. *)
Definition plot_timeseries (title : string) (x y : list (list float64))
  (line : list string) : plt.M unit :=
  (plt.emit (plt.figure (Some (10, 4)%Z)) ;;
   plt.emit plt.gca ;;
   plt.emit (plt.set_xlabel "Time (s)") ;;
   plt.emit (plt.set_ylabel "Amplitude") ;;
   plt.emit (plt.grid true) ;;
   plt.emit (plt.set_ylim (-12 / 10) (12 / 10)) ;;
   plt.emit (plt.set_title title) ;;
   plt.for_range (length x) (draw_series x y line) ;;
   plt.emit plt.show)%plt.

(** ** plot_response *)

(** [plot_response(fs, w, h, title, xlim)]; [xlim = None] is its default. *)
Definition plot_response (fs : R) (w : list R) (h : list complex)
  (title : string) (xlim : option R) : plt.M unit :=
  let xlim := match xlim with None => (fs / 2)%R | Some v => v end in
  (plt.emit (plt.figure None) ;;
   plt.emit (plt.add_subplot 111) ;;
   plt.ax_plot (map (fun wi => Fin (5 / 10 * fs * wi / PI)%R) w)
               (np.times 20 (np.log10 (np.abs h))) plt.solid ;;
   plt.emit (plt.set_ylim (-60) 20) ;;
   plt.emit (plt.set_xlim 0 xlim) ;;
   plt.emit (plt.grid true) ;;
   plt.emit (plt.set_xlabel "Frequency (Hz)") ;;
   plt.emit (plt.set_ylabel "Gain (dB)") ;;
   plt.emit (plt.set_title title))%plt.

(** ** The spectrum as the specification words it *)

Module Spec.

(** The [n]-point transform of [s], written out: bin [k] is
    sum_{j < n} s_j exp(-2 pi i j k / n), with [s_j = 0] past the end. *)
Definition DFT (n : nat) (s : list complex) (k : nat) : complex :=
  Cplx.sum n
    (fun j => Cplx.mul (nth j s Cplx.zero) (np.fft.twiddle n j k)).

(** The bin that centring shows at output index [i]: the halves are swapped,
    so that bin 0 lands on index [n / 2]. *)
Definition centred (n i : nat) : nat := (i + (n - n / 2)) mod n.

(** 10 * log10(m / d) for a magnitude [m]. *)
Definition decibel (m : R) (d : nat) : float64 :=
  np.times_1 10 (np.log10_1 (np.true_divide (Fin m) d)).

(** Output element [i]: 10 * log10(|fftshift(DFT_n(s))[i]| / len(s)). *)
Definition spectrum_at (s : list complex) (n i : nat) : float64 :=
  decibel (Cplx.modulus (DFT n s (centred n i))) (length s).

(** [s] followed by zeros up to length [n]. *)
Definition zero_pad (s : list complex) (n : nat) : list complex :=
  s ++ repeat Cplx.zero (n - length s).

(** The reference computation of the zero-padding property: pad by hand,
    transform at the padded length, centre, and scale as [find_fft] does,
    by the count of the samples before padding. *)
Definition padded_reference (s : list complex) (n : nat) : list float64 :=
  map (fun z => decibel (Cplx.modulus z) (length s))
      (np.fft.fftshift (np.fft.dft (zero_pad s n))).

End Spec.

(** ** plot_fft *)

(** The renderer as [plot_fft] uses it: the calls of [plt], and with them a
    line that carries a legend label, the vertical marker lines and the
    legend. *)
Module pyplot.

Inductive call : Type :=
| common (c : plt.call)
| plot_labelled (x y : list float64) (label : string)
| axvline (x : R) (color linestyle label : string)
| legend.

Definition M (A : Type) : Type := list call -> list call * result A.

Definition ret {A : Type} (a : A) : M A := fun log => (log, Ok a).

Definition raise {A : Type} (e : exn) : M A := fun log => (log, Raise e).

Definition bind {A B : Type} (m : M A) (k : A -> M B) : M B :=
  fun log =>
    match m log with
    | (log', Ok a) => k a log'
    | (log', Raise e) => (log', Raise e)
    end.

Definition emit (c : call) : M unit := fun log => (log ++ [c], Ok tt).

(** [l[i]] for [i >= 0]: IndexError past the end. *)
Definition getitem {A : Type} (l : list A) (i : nat) : M A :=
  match nth_error l i with
  | Some a => ret a
  | None => raise IndexError
  end.

Fixpoint for_each {A : Type} (l : list A) (body : A -> M unit) : M unit :=
  match l with
  | [] => ret tt
  | i :: rest => bind (body i) (fun _ => for_each rest body)
  end.

Definition for_range (n : nat) (body : nat -> M unit) : M unit :=
  for_each (seq 0 n) body.

(** [ax.plot(x, y)] or [ax.plot(x, y, label=...)]: ValueError when [x] and
    [y] differ in length. *)
Definition ax_plot (x y : list float64) (label : option string) : M unit :=
  if Nat.eqb (length x) (length y) then
    match label with
    | Some name => emit (plot_labelled x y name)
    | None => emit (common (plt.plot x y plt.solid))
    end
  else raise ValueError.

Definition run {A : Type} (m : M A) : list call * result A := m [].

End pyplot.

Declare Scope pyplot_scope.
Delimit Scope pyplot_scope with pyplot.
Notation "x <- m ;; k" := (pyplot.bind m (fun x => k))
  (at level 61, m at next level, right associativity) : pyplot_scope.
Notation "m ;; k" := (pyplot.bind m (fun _ => k))
  (at level 61, right associativity) : pyplot_scope.

(** The body of the loop of [plot_fft], at index [i].  The arguments of
    [ax.plot] are evaluated from left to right: [freqs[i]] and its slice,
    [fft_signal[i]] and its slice, then [label[i]] when there are labels.
    Both slices start at [int(len(freqs[i])/2)], which is
    [len(freqs[i]) // 2]; a slice [a[k:]] never raises. *)
Definition draw_spectrum (freqs fft_signal : list (list float64))
  (label : option (list string)) (i : nat) : pyplot.M unit :=
  match label with
  | Some names =>
      (f <- pyplot.getitem freqs i ;;
       f0 <- pyplot.getitem freqs i ;;
       s <- pyplot.getitem fft_signal i ;;
       f1 <- pyplot.getitem freqs i ;;
       name <- pyplot.getitem names i ;;
       pyplot.ax_plot (skipn (length f0 / 2) f) (skipn (length f1 / 2) s)
         (Some name))%pyplot
  | None =>
      (f <- pyplot.getitem freqs i ;;
       f0 <- pyplot.getitem freqs i ;;
       s <- pyplot.getitem fft_signal i ;;
       f1 <- pyplot.getitem freqs i ;;
       pyplot.ax_plot (skipn (length f0 / 2) f) (skipn (length f1 / 2) s)
         None)%pyplot
  end.

(** [plot_fft(freqs, fft_signal, fs, title, label)]; [label = None] is its
    default. *)
Definition plot_fft (freqs fft_signal : list (list float64)) (fs : R)
  (title : string) (label : option (list string)) : pyplot.M unit :=
  (pyplot.emit (pyplot.common (plt.figure (Some (10, 4)%Z))) ;;
   pyplot.emit (pyplot.common plt.gca) ;;
   pyplot.for_range (length freqs) (draw_spectrum freqs fft_signal label) ;;
   pyplot.emit (pyplot.axvline fs "g" "--" "fs") ;;
   pyplot.emit (pyplot.axvline (fs / 2) "r" "--" "fs/2") ;;
   pyplot.emit (pyplot.common (plt.grid true)) ;;
   pyplot.emit (pyplot.common (plt.set_title title)) ;;
   pyplot.emit (pyplot.common (plt.set_xlabel "Frequency, Hz")) ;;
   pyplot.emit (pyplot.common (plt.set_ylabel "Amplitude, dB")) ;;
   pyplot.emit (pyplot.common (plt.set_xlim 0 3000)) ;;
   pyplot.emit pyplot.legend ;;
   pyplot.emit (pyplot.common plt.show))%pyplot.

(** ** What a figure is expected to hold *)

Module Drawn.

(** A tag that [plot_timeseries] acts on. *)
Definition known_tag (tag : string) : bool :=
  String.eqb tag "continuous" || String.eqb tag "discrete"
  || String.eqb tag "dash".



(** The upper half of a series: from index [len // 2] on. *)
Definition upper_half (a : list float64) : list float64 :=
  skipn (length a / 2) a.

(** The call one spectrum of [plot_fft] gives rise to. *)
Definition spectrum_call (f s : list float64) (name : option string)
  : pyplot.call :=
  match name with
  | Some l => pyplot.plot_labelled (upper_half f) (upper_half s) l
  | None => pyplot.common (plt.plot (upper_half f) (upper_half s) plt.solid)
  end.

(** The calls of the spectra, with the labels when there are any. *)
Fixpoint spectrum_calls (freqs fft_signal : list (list float64))
  (label : option (list string)) : list pyplot.call :=
  match freqs, fft_signal with
  | f :: freqs', s :: fft_signal' =>
      match label with
      | None => spectrum_call f s None :: spectrum_calls freqs' fft_signal' None
      | Some (l :: names) =>
          spectrum_call f s (Some l)
          :: spectrum_calls freqs' fft_signal' (Some names)
      | Some [] => []
      end
  | _, _ => []
  end.

(** What [plot_fft] adds once the spectra are drawn. *)
Definition fft_frame (fs : R) (title : string) : list pyplot.call :=
  [pyplot.axvline fs "g" "--" "fs"; pyplot.axvline (fs / 2) "r" "--" "fs/2";
   pyplot.common (plt.grid true); pyplot.common (plt.set_title title);
   pyplot.common (plt.set_xlabel "Frequency, Hz");
   pyplot.common (plt.set_ylabel "Amplitude, dB");
   pyplot.common (plt.set_xlim 0 3000); pyplot.legend;
   pyplot.common plt.show].

End Drawn.


(** * Properties *)

(** ** Complex numbers and twiddle factors *)

Section ComplexFacts.
Local Open Scope R_scope.

Lemma Cx_eq (a b c d : R) : a = c -> b = d -> Cx a b = Cx c d.
Proof. intros -> ->; reflexivity. Qed.

Lemma add_zero_r (z : complex) : Cplx.add z Cplx.zero = z.
Proof. destruct z as [a b]; apply Cx_eq; simpl; ring. Qed.

Lemma mul_zero_l (z : complex) : Cplx.mul Cplx.zero z = Cplx.zero.
Proof. destruct z as [a b]; apply Cx_eq; simpl; ring. Qed.

Lemma scale_zero (c : R) : Cplx.scale c Cplx.zero = Cplx.zero.
Proof. apply Cx_eq; simpl; ring. Qed.

Lemma scale_add (c : R) (u v : complex) :
  Cplx.scale c (Cplx.add u v) = Cplx.add (Cplx.scale c u) (Cplx.scale c v).
Proof. destruct u, v; apply Cx_eq; simpl; ring. Qed.

Lemma scale_mul (c : R) (u v : complex) :
  Cplx.mul (Cplx.scale c u) v = Cplx.scale c (Cplx.mul u v).
Proof. destruct u, v; apply Cx_eq; simpl; ring. Qed.

Lemma modulus_nonneg (z : complex) : 0 <= Cplx.modulus z.
Proof. apply sqrt_pos. Qed.

Lemma modulus_zero : Cplx.modulus Cplx.zero = 0.
Proof.
  unfold Cplx.modulus; simpl.
  replace (0 * 0 + 0 * 0) with 0 by ring. apply sqrt_0.
Qed.

Lemma modulus_of_real (r : R) : 0 <= r -> Cplx.modulus (Cx r 0) = r.
Proof.
  intros Hr. unfold Cplx.modulus; simpl.
  replace (r * r + 0 * 0) with (r * r) by ring.
  apply sqrt_square, Hr.
Qed.

Lemma modulus_scale (c : R) (z : complex) :
  0 <= c -> Cplx.modulus (Cplx.scale c z) = c * Cplx.modulus z.
Proof.
  intros Hc. destruct z as [a b]. unfold Cplx.modulus; simpl.
  replace (c * a * (c * a) + c * b * (c * b)) with ((c * c) * (a * a + b * b))
    by ring.
  rewrite sqrt_mult; [| nra | nra].
  rewrite sqrt_square by exact Hc. reflexivity.
Qed.

(** The exponent of a twiddle factor counts modulo the transform size. *)
Lemma twiddle_mod (n j k : nat) :
  (0 < n)%nat ->
  np.fft.twiddle n j k
  = Cplx.expi (- (2 * PI * INR ((j * k) mod n) / INR n)).
Proof.
  intros Hn. unfold np.fft.twiddle, Cplx.expi.
  set (m := (j * k)%nat).
  assert (Hm : INR m = INR n * INR (m / n) + INR (m mod n)).
  { rewrite <- mult_INR, <- plus_INR. f_equal. apply Nat.div_mod_eq. }
  assert (Hn0 : INR n <> 0) by (apply not_0_INR; lia).
  assert (Ha : 2 * PI * INR m / INR n
               = 2 * PI * INR (m mod n) / INR n + 2 * INR (m / n) * PI).
  { rewrite Hm. field. exact Hn0. }
  rewrite Ha. rewrite !cos_neg, !sin_neg, cos_period, sin_period.
  reflexivity.
Qed.

Lemma twiddle_1 (j k : nat) : np.fft.twiddle 1 j k = Cx 1 0.
Proof.
  rewrite twiddle_mod by lia. rewrite Nat.mod_1_r. unfold Cplx.expi.
  replace (- (2 * PI * INR 0 / INR 1)) with 0 by (simpl; field).
  rewrite cos_0, sin_0. reflexivity.
Qed.

Lemma twiddle_2 (j k : nat) :
  np.fft.twiddle 2 j k
  = match ((j * k) mod 2)%nat with
    | O => Cx 1 0
    | _ => Cx (-1) 0
    end.
Proof.
  rewrite twiddle_mod by lia.
  assert (Hlt : ((j * k) mod 2 < 2)%nat) by (apply Nat.mod_upper_bound; lia).
  destruct ((j * k) mod 2)%nat as [|[|r]]; [| |lia]; unfold Cplx.expi.
  - replace (- (2 * PI * INR 0 / INR 2)) with 0 by (simpl; field).
    rewrite cos_0, sin_0. reflexivity.
  - replace (- (2 * PI * INR 1 / INR 2)) with (- PI) by (simpl; field).
    rewrite cos_neg, sin_neg, cos_PI, sin_PI. apply Cx_eq; ring.
Qed.

Lemma twiddle_4 (j k : nat) :
  np.fft.twiddle 4 j k
  = match ((j * k) mod 4)%nat with
    | 0%nat => Cx 1 0
    | 1%nat => Cx 0 (-1)
    | 2%nat => Cx (-1) 0
    | _ => Cx 0 1
    end.
Proof.
  rewrite twiddle_mod by lia.
  assert (Hlt : ((j * k) mod 4 < 4)%nat) by (apply Nat.mod_upper_bound; lia).
  destruct ((j * k) mod 4)%nat as [|[|[|[|r]]]]; [| | | |lia];
    unfold Cplx.expi.
  - replace (- (2 * PI * INR 0 / INR 4)) with 0 by (simpl; field).
    rewrite cos_0, sin_0. reflexivity.
  - replace (- (2 * PI * INR 1 / INR 4)) with (- (PI / 2)) by (simpl; field).
    rewrite cos_neg, sin_neg, cos_PI2, sin_PI2. reflexivity.
  - replace (- (2 * PI * INR 2 / INR 4)) with (- PI) by (simpl; field).
    rewrite cos_neg, sin_neg, cos_PI, sin_PI. apply Cx_eq; ring.
  - replace (- (2 * PI * INR 3 / INR 4)) with (- (3 * (PI / 2)))
      by (simpl; field).
    rewrite cos_neg, sin_neg, cos_3PI2, sin_3PI2. apply Cx_eq; ring.
Qed.

End ComplexFacts.

(** ** Sizing, transforming and centring *)

Lemma sum_ext (n : nat) (f g : nat -> complex) :
  (forall j, (j < n)%nat -> f j = g j) -> Cplx.sum n f = Cplx.sum n g.
Proof.
  intros H. unfold Cplx.sum. f_equal. apply map_ext_in.
  intros j Hj. apply in_seq in Hj. apply H. lia.
Qed.

Lemma sum_scale (c : R) (n : nat) (f : nat -> complex) :
  Cplx.sum n (fun j => Cplx.scale c (f j)) = Cplx.scale c (Cplx.sum n f).
Proof.
  unfold Cplx.sum. induction (seq 0 n) as [|j l IH]; simpl.
  - symmetry. apply scale_zero.
  - rewrite IH, scale_add. reflexivity.
Qed.

Lemma sum_zero (n : nat) : Cplx.sum n (fun _ => Cplx.zero) = Cplx.zero.
Proof.
  unfold Cplx.sum. induction (seq 0 n) as [|j l IH]; simpl.
  - reflexivity.
  - rewrite IH. apply add_zero_r.
Qed.

Lemma fit_pad (a : list complex) (n : nat) :
  (length a <= n)%nat ->
  np.fft.fit a n = a ++ repeat Cplx.zero (n - length a).
Proof.
  intros Hle. unfold np.fft.fit.
  destruct (Nat.eqb_spec (length a) n) as [He|Hne].
  - subst n. rewrite Nat.sub_diag. simpl. symmetry. apply app_nil_r.
  - destruct (Nat.ltb_spec n (length a)) as [Hlt|_]; [lia|].
    unfold np.fft.assign_prefix. f_equal.
    replace n with (length a + (n - length a))%nat at 1 by lia.
    rewrite repeat_app, skipn_app, repeat_length, Nat.sub_diag.
    rewrite skipn_all2 by (rewrite repeat_length; lia).
    reflexivity.
Qed.

Lemma fit_crop (a : list complex) (n : nat) :
  (n <= length a)%nat -> np.fft.fit a n = firstn n a.
Proof.
  intros Hle. unfold np.fft.fit.
  destruct (Nat.eqb_spec (length a) n) as [He|Hne].
  - subst n. symmetry. apply firstn_all.
  - destruct (Nat.ltb_spec n (length a)) as [_|Hge]; [reflexivity|lia].
Qed.

Lemma fit_length (a : list complex) (n : nat) : length (np.fft.fit a n) = n.
Proof.
  destruct (Nat.le_ge_cases (length a) n) as [H|H].
  - rewrite fit_pad by exact H. rewrite length_app, repeat_length. lia.
  - rewrite fit_crop by exact H. rewrite length_firstn. lia.
Qed.

(** Within the transform size, the sized input reads as the samples, and as
    zero past their end. *)
Lemma fit_nth (a : list complex) (n j : nat) :
  (j < n)%nat -> nth j (np.fft.fit a n) Cplx.zero = nth j a Cplx.zero.
Proof.
  intros Hj. destruct (Nat.le_ge_cases (length a) n) as [H|H].
  - rewrite fit_pad by exact H.
    destruct (Nat.lt_ge_cases j (length a)) as [Hlt|Hge].
    + apply app_nth1, Hlt.
    + rewrite app_nth2 by exact Hge. rewrite nth_repeat.
      symmetry. apply nth_overflow, Hge.
  - rewrite fit_crop by exact H.
    rewrite <- (firstn_skipn n a) at 2. symmetry. apply app_nth1.
    rewrite length_firstn. lia.
Qed.

Lemma fit_scale (c : R) (a : list complex) (n : nat) :
  np.fft.fit (map (Cplx.scale c) a) n = map (Cplx.scale c) (np.fft.fit a n).
Proof.
  unfold np.fft.fit, np.fft.assign_prefix. rewrite length_map.
  destruct (Nat.eqb (length a) n); [reflexivity|].
  destruct (Nat.ltb n (length a)).
  - apply firstn_map.
  - rewrite map_app, <- skipn_map, map_repeat, scale_zero. reflexivity.
Qed.

Lemma dft_length (a : list complex) : length (np.fft.dft a) = length a.
Proof. unfold np.fft.dft. rewrite length_map, length_seq. reflexivity. Qed.

Lemma dft_nth (a : list complex) (k : nat) :
  (k < length a)%nat -> nth k (np.fft.dft a) Cplx.zero = np.fft.bin a k.
Proof.
  intros Hk. unfold np.fft.dft.
  rewrite (nth_indep _ Cplx.zero (np.fft.bin a 0))
    by (rewrite length_map, length_seq; exact Hk).
  rewrite map_nth, seq_nth by exact Hk. reflexivity.
Qed.

(** The transform of the sized input is the transform the specification
    writes out. *)
Lemma bin_fit (s : list complex) (n k : nat) :
  np.fft.bin (np.fft.fit s n) k = Spec.DFT n s k.
Proof.
  unfold np.fft.bin, Spec.DFT. rewrite fit_length.
  apply sum_ext. intros j Hj. rewrite fit_nth by exact Hj. reflexivity.
Qed.

Lemma bin_scale (c : R) (a : list complex) (k : nat) :
  np.fft.bin (map (Cplx.scale c) a) k = Cplx.scale c (np.fft.bin a k).
Proof.
  unfold np.fft.bin. rewrite length_map, <- sum_scale.
  apply sum_ext. intros j _.
  rewrite <- scale_mul. f_equal.
  rewrite <- scale_zero with (c := c) at 1. apply map_nth.
Qed.

Lemma dft_scale (c : R) (a : list complex) :
  np.fft.dft (map (Cplx.scale c) a) = map (Cplx.scale c) (np.fft.dft a).
Proof.
  unfold np.fft.dft. rewrite length_map, map_map.
  apply map_ext. intros k. apply bin_scale.
Qed.

Lemma roll_length (a : list complex) (s : nat) :
  length (np.fft.roll a s) = length a.
Proof.
  unfold np.fft.roll. rewrite length_app, length_skipn, length_firstn. lia.
Qed.

Lemma fftshift_length (a : list complex) :
  length (np.fft.fftshift a) = length a.
Proof. apply roll_length. Qed.

Lemma fftshift_map (f : complex -> complex) (a : list complex) :
  np.fft.fftshift (map f a) = map f (np.fft.fftshift a).
Proof.
  unfold np.fft.fftshift, np.fft.roll. rewrite length_map, map_app.
  rewrite skipn_map, firstn_map. reflexivity.
Qed.

(** Output index [i] of the centred array holds bin [Spec.centred n i]. *)
Lemma fftshift_nth (a : list complex) (i : nat) (d : complex) :
  (i < length a)%nat ->
  nth i (np.fft.fftshift a) d = nth (Spec.centred (length a) i) a d.
Proof.
  intros Hi. unfold np.fft.fftshift, np.fft.roll, Spec.centred.
  set (n := length a) in *.
  assert (Hh : (n / 2 <= n)%nat) by (apply Nat.Div0.div_le_upper_bound; lia).
  destruct (Nat.lt_ge_cases i (n / 2)) as [Hlt|Hge].
  - rewrite app_nth1 by (rewrite length_skipn; fold n; lia).
    rewrite nth_skipn. f_equal.
    rewrite Nat.mod_small by lia. lia.
  - rewrite app_nth2 by (rewrite length_skipn; fold n; lia).
    rewrite length_skipn. fold n.
    replace (n - (n - n / 2))%nat with (n / 2)%nat by lia.
    rewrite nth_firstn.
    destruct (Nat.ltb_spec (i - n / 2) (n - n / 2)) as [_|Hbad]; [|lia].
    f_equal.
    replace (i + (n - n / 2))%nat with ((i - n / 2) + 1 * n)%nat by lia.
    rewrite Nat.Div0.mod_add. rewrite Nat.mod_small by lia. reflexivity.
Qed.

Example fftshift_even (a b c d : complex) :
  np.fft.fftshift [a; b; c; d] = [c; d; a; b].
Proof. reflexivity. Qed.

Example fftshift_odd (a b c d e : complex) :
  np.fft.fftshift [a; b; c; d; e] = [d; e; a; b; c].
Proof. reflexivity. Qed.

Example fit_crops (a b c : complex) : np.fft.fit [a; b; c] 2 = [a; b].
Proof. reflexivity. Qed.

Example fit_pads (a b : complex) :
  np.fft.fit [a; b] 4 = [a; b; Cplx.zero; Cplx.zero].
Proof. reflexivity. Qed.

(** The zero-frequency bin lands on index [n / 2]. *)
Lemma centred_half (n : nat) : (0 < n)%nat -> Spec.centred n (n / 2) = 0%nat.
Proof.
  intros Hn. unfold Spec.centred.
  assert (Hh : (n / 2 <= n)%nat) by (apply Nat.Div0.div_le_upper_bound; lia).
  replace (n / 2 + (n - n / 2))%nat with n by lia.
  apply Nat.Div0.mod_same.
Qed.

(** ** Small transforms, written out *)

Section SmallTransforms.
Local Open Scope R_scope.

Ltac mod_values :=
  repeat match goal with
  | |- context [Nat.modulo ?a ?b] =>
      let v := eval vm_compute in (Nat.modulo a b) in
      change (Nat.modulo a b) with v
  end.

Ltac bins tw :=
  cbv [np.fft.dft np.fft.bin Cplx.sum length seq map fold_right nth];
  rewrite ?tw; mod_values; cbv beta iota;
  repeat (f_equal; try (apply Cx_eq; simpl; ring)).

Lemma dft_1 (a : complex) : np.fft.dft [a] = [a].
Proof. destruct a as [ra ia]. bins twiddle_1. Qed.

Lemma dft_2 (a b : complex) :
  np.fft.dft [a; b]
  = [Cx (re a + re b) (im a + im b); Cx (re a - re b) (im a - im b)].
Proof. destruct a as [ra ia], b as [rb ib]. bins twiddle_2. Qed.

Lemma dft_4 (a b c d : complex) :
  np.fft.dft [a; b; c; d]
  = [Cx (re a + re b + re c + re d) (im a + im b + im c + im d);
     Cx (re a + im b - re c - im d) (im a - re b - im c + re d);
     Cx (re a - re b + re c - re d) (im a - im b + im c - im d);
     Cx (re a - im b - re c + im d) (im a + re b - im c - re d)].
Proof.
  destruct a as [ra ia], b as [rb ib], c as [rc ic], d as [rd id].
  bins twiddle_4.
Qed.

(** Every bin of an all-zero input is zero. *)
Lemma bin_zeros (n k : nat) :
  np.fft.bin (repeat Cplx.zero n) k = Cplx.zero.
Proof.
  unfold np.fft.bin. rewrite repeat_length.
  transitivity (Cplx.sum n (fun _ => Cplx.zero)); [|apply sum_zero].
  apply sum_ext. intros j _. rewrite nth_repeat. apply mul_zero_l.
Qed.

Lemma dft_zeros (n : nat) :
  np.fft.dft (repeat Cplx.zero n) = repeat Cplx.zero n.
Proof.
  unfold np.fft.dft. rewrite repeat_length.
  rewrite (map_ext _ (fun _ => Cplx.zero)) by (intros k; apply bin_zeros).
  generalize 0%nat. induction n as [|n IH]; intros st; simpl.
  - reflexivity.
  - rewrite IH. reflexivity.
Qed.

End SmallTransforms.

(** ** Decibels *)

Section Decibels.
Local Open Scope R_scope.

Lemma ln_10_pos : 0 < ln 10.
Proof. rewrite <- ln_1. apply ln_increasing; lra. Qed.

Lemma Rlog10_1 : Rlog10 1 = 0.
Proof. unfold Rlog10. rewrite ln_1. unfold Rdiv. ring. Qed.

Lemma Rlog10_10 : Rlog10 10 = 1.
Proof. unfold Rlog10. field. pose proof ln_10_pos. lra. Qed.

Lemma Rlog10_mult (a b : R) :
  0 < a -> 0 < b -> Rlog10 (a * b) = Rlog10 a + Rlog10 b.
Proof.
  intros Ha Hb. unfold Rlog10. rewrite ln_mult by assumption.
  field. pose proof ln_10_pos. lra.
Qed.

Lemma log10_1_pos (r : R) : 0 < r -> np.log10_1 (Fin r) = Fin (Rlog10 r).
Proof.
  intros Hr. unfold np.log10_1. destruct (Rlt_dec 0 r); [reflexivity|lra].
Qed.

Lemma log10_1_zero : np.log10_1 (Fin 0) = NInf.
Proof.
  unfold np.log10_1.
  destruct (Rlt_dec 0 0); [lra|]. destruct (Rlt_dec 0 0); [lra|reflexivity].
Qed.

Lemma times_1_ninf (k : R) : 0 < k -> np.times_1 k NInf = NInf.
Proof.
  intros Hk. unfold np.times_1. destruct (Rlt_dec 0 k); [reflexivity|lra].
Qed.

Lemma decibel_pos (m : R) (d : nat) :
  0 < m -> (0 < d)%nat ->
  Spec.decibel m d = Fin (10 * Rlog10 (m / INR d)).
Proof.
  intros Hm Hd. unfold Spec.decibel.
  destruct d as [|d]; [lia|]. cbv [np.true_divide].
  rewrite log10_1_pos; [reflexivity|].
  apply Rdiv_lt_0_compat; [exact Hm|]. apply lt_0_INR. lia.
Qed.

(** A zero magnitude over a positive count is -inf decibels. *)
Lemma decibel_zero (d : nat) : (0 < d)%nat -> Spec.decibel 0 d = NInf.
Proof.
  intros Hd. unfold Spec.decibel.
  destruct d as [|d]; [lia|]. cbv [np.true_divide].
  replace (0 / INR (S d)) with 0 by (unfold Rdiv; ring).
  rewrite log10_1_zero. apply times_1_ninf. lra.
Qed.

(** A zero magnitude over a zero count is nan: 0/0. *)
Lemma decibel_0_0 : Spec.decibel 0 0 = NaN.
Proof.
  unfold Spec.decibel. cbv [np.true_divide].
  destruct (Rlt_dec 0 0); [lra|]. reflexivity.
Qed.

(** Scaling the magnitude by [c > 0] adds [10 * log10 c] decibels. *)
Lemma decibel_scale (c m : R) (d : nat) :
  0 < c -> 0 <= m -> (0 < d)%nat ->
  Spec.decibel (c * m) d
  = np.add_1 (Spec.decibel m d) (Fin (10 * Rlog10 c)).
Proof.
  intros Hc Hm Hd. destruct Hm as [Hm|<-].
  - assert (Hp : 0 < INR d) by (apply lt_0_INR; exact Hd).
    rewrite !decibel_pos; try assumption; [|nra].
    simpl. f_equal.
    replace (c * m / INR d) with (c * (m / INR d)) by (field; lra).
    rewrite Rlog10_mult; [ring|exact Hc|].
    apply Rdiv_lt_0_compat; assumption.
  - replace (c * 0) with 0 by ring.
    rewrite decibel_zero by exact Hd. reflexivity.
Qed.

End Decibels.

(** ** find_fft, whole *)

Lemma fft_ok (a : list complex) (n : Z) :
  (1 <= n)%Z -> np.fft.fft a n = Ok (np.fft.dft (np.fft.fit a (Z.to_nat n))).
Proof.
  intros Hn. unfold np.fft.fft.
  destruct (Z.ltb_spec n 1) as [Hlt|_]; [lia|reflexivity].
Qed.

(** With a positive window length [find_fft] returns; element by element it
    is the decibel value of a centred bin. *)
Lemma find_fft_ok (s : list complex) (n : Z) :
  (1 <= n)%Z ->
  find_fft s n
  = Ok (map (fun z => Spec.decibel (Cplx.modulus z) (length s))
          (np.fft.fftshift (np.fft.dft (np.fft.fit s (Z.to_nat n))))).
Proof.
  intros Hn. unfold find_fft. rewrite fft_ok by exact Hn.
  unfold np.times, np.log10, np.divide, np.abs.
  rewrite !map_map. reflexivity.
Qed.

Lemma find_fft_raise (s : list complex) (n : Z) :
  (n < 1)%Z -> find_fft s n = Raise ValueError.
Proof.
  intros Hn. unfold find_fft, np.fft.fft.
  destruct (Z.ltb_spec n 1) as [_|Hge]; [reflexivity|lia].
Qed.

Lemma find_fft_raises_iff (s : list complex) (n : Z) :
  raises (find_fft s n) <-> (n < 1)%Z.
Proof.
  split.
  - intros [e He]. destruct (Z.lt_ge_cases n 1) as [Hlt|Hge]; [exact Hlt|].
    rewrite find_fft_ok in He by exact Hge. discriminate He.
  - intros Hn. exists ValueError. apply find_fft_raise, Hn.
Qed.

(** ** Runs of find_fft on small inputs *)

Section Runs.
Local Open Scope R_scope.

Lemma decibel_bin_zero (a b : R) (d : nat) :
  a = 0 -> b = 0 -> (0 < d)%nat ->
  Spec.decibel (Cplx.modulus (Cx a b)) d = NInf.
Proof.
  intros -> -> Hd. fold Cplx.zero. rewrite modulus_zero.
  apply decibel_zero, Hd.
Qed.

Lemma decibel_bin_real (a b v : R) (d : nat) :
  0 < a -> b = 0 -> (0 < d)%nat -> 10 * Rlog10 (a / INR d) = v ->
  Spec.decibel (Cplx.modulus (Cx a b)) d = Fin v.
Proof.
  intros Ha -> Hd <-. rewrite modulus_of_real by lra.
  apply decibel_pos; assumption.
Qed.

Ltac sized_transform :=
  cbv [map Cplx.of_real Cplx.scale re im];
  cbv [np.fft.fit length Nat.eqb Nat.ltb Nat.leb Z.to_nat Pos.to_nat
       Pos.iter_op Nat.add np.fft.assign_prefix repeat skipn app Cplx.zero];
  rewrite ?dft_1, ?dft_2, ?dft_4;
  cbv [re im].

Ltac spectrum_values :=
  rewrite find_fft_ok by lia;
  sized_transform;
  cbv [np.fft.fftshift np.fft.roll length];
  simpl;
  repeat f_equal.

Ltac minus_inf := apply decibel_bin_zero; [lra | lra | lia].

Ltac zero_dB :=
  apply decibel_bin_real; [lra | lra | lia |];
  match goal with
  | |- 10 * Rlog10 ?q = 0 =>
      replace q with 1 by (simpl INR; lra); rewrite Rlog10_1; ring
  end.

(** A constant signal: all of it in the zero-frequency bin, at the centre. *)
Lemma find_fft_constant :
  find_fft (map Cplx.of_real [1; 1; 1; 1]) 4 = Ok [NInf; NInf; Fin 0; NInf].
Proof. spectrum_values; [minus_inf | minus_inf | zero_dB | minus_inf]. Qed.

Lemma fft_alternating :
  np.fft.fft (map Cplx.of_real [1; -1; 1; -1]) 4
  = Ok [Cx 0 0; Cx 0 0; Cx 4 0; Cx 0 0].
Proof.
  rewrite fft_ok by lia. sized_transform.
  repeat f_equal; lra.
Qed.

(** An alternating signal: all of it in the Nyquist bin, at index 0. *)
Lemma find_fft_alternating :
  find_fft (map Cplx.of_real [1; -1; 1; -1]) 4
  = Ok [Fin 0; NInf; NInf; NInf].
Proof. spectrum_values; [zero_dB | minus_inf | minus_inf | minus_inf]. Qed.

Lemma find_fft_unit : find_fft (map Cplx.of_real [1]) 1 = Ok [Fin 0].
Proof. spectrum_values. zero_dB. Qed.

Lemma find_fft_ten :
  find_fft (map (Cplx.scale 10) (map Cplx.of_real [1])) 1 = Ok [Fin 10].
Proof.
  spectrum_values. apply decibel_bin_real; [lra | lra | lia |].
  replace (10 * 1 / INR 1) with 10 by (simpl INR; lra).
  rewrite Rlog10_10. ring.
Qed.

(** One sample in a window of two: the divisor is the one sample, so both
    bins are at 10 * log10(1/1) = 0 and not at 10 * log10(1/2). *)
Lemma find_fft_padded_unit :
  find_fft (map Cplx.of_real [1]) 2 = Ok [Fin 0; Fin 0].
Proof. spectrum_values; zero_dB. Qed.

(** No sample at all: every bin is 0, the count is 0, and 0/0 is nan. *)
Lemma find_fft_no_sample : find_fft [] 8 = Ok (repeat NaN 8).
Proof.
  rewrite find_fft_ok by lia.
  rewrite fit_pad by (simpl; lia).
  change ([] ++ repeat Cplx.zero (Z.to_nat 8 - length (@nil complex)))
    with (repeat Cplx.zero 8).
  rewrite dft_zeros.
  cbv [np.fft.fftshift np.fft.roll repeat length]. simpl.
  fold Cplx.zero. rewrite modulus_zero, decibel_0_0. reflexivity.
Qed.

Lemma find_fft_window_zero :
  find_fft (map Cplx.of_real [1; 2; 3]) 0 = Raise ValueError.
Proof. apply find_fft_raise. lia. Qed.

End Runs.

(** ** The spectrum: errors, length, values *)

(** C1, as the specification has it, fails: with no sample and a window of 8
    [find_fft] does not raise. *)
Lemma find_fft_no_sample_returns :
  ~ (raises (find_fft [] 8) <-> (@nil complex = [] \/ (8 < 1)%Z)).
Proof.
  intros [_ H]. destruct (H (or_introl eq_refl)) as [e He].
  rewrite find_fft_no_sample in He. discriminate He.
Qed.

(** C1, amended: [find_fft] raises exactly when the window length is below 1,
    and what it raises is numpy's ValueError; the samples play no part.
    [find_fft([1,2,3], 0)] raises; [find_fft([], 8)] returns eight nan. *)
Theorem find_fft_raises_on_window_only :
  (forall (s : list complex) (n : Z),
     (raises (find_fft s n) <-> (n < 1)%Z) /\
     (forall e, find_fft s n = Raise e -> e = ValueError)) /\
  find_fft (map Cplx.of_real [1; 2; 3]%R) 0 = Raise ValueError /\
  find_fft [] 8 = Ok (repeat NaN 8).
Proof.
  split; [|split].
  - intros s n. split; [apply find_fft_raises_iff|].
    intros e He. destruct (Z.lt_ge_cases n 1) as [Hlt|Hge].
    + rewrite find_fft_raise in He by exact Hlt. congruence.
    + rewrite find_fft_ok in He by exact Hge. discriminate He.
  - exact find_fft_window_zero.
  - exact find_fft_no_sample.
Qed.

Lemma find_fft_raises_on_window_only_witness :
  find_fft (map Cplx.of_real [1; 2; 3]%R) (-2) = Raise ValueError.
Proof.
  destruct (proj1 find_fft_raises_on_window_only
              (map Cplx.of_real [1; 2; 3]%R) (-2)%Z) as [[_ Hraises] Hwhich].
  destruct Hraises as [e He]; [lia|].
  rewrite He. f_equal. exact (Hwhich e He).
Defined.

(** C2: for samples that are not empty and a window length of at least 1,
    [find_fft] returns, and what it returns is as long as the window. *)
Theorem find_fft_length (s : list complex) (n : Z) :
  s <> [] -> (1 <= n)%Z ->
  exists out, find_fft s n = Ok out /\ Z.of_nat (length out) = n.
Proof.
  intros _ Hn. rewrite find_fft_ok by exact Hn. eexists. split; [reflexivity|].
  rewrite length_map, fftshift_length, dft_length, fit_length. lia.
Qed.

Lemma find_fft_length_witness :
  exists out,
    find_fft (map Cplx.of_real [1; 2; 3]%R) 8 = Ok out
    /\ Z.of_nat (length out) = 8%Z.
Proof. apply find_fft_length; [discriminate | lia]. Defined.

(** C3: for samples [s] that are not empty and a window length [n >= 1],
    element [i] of the result is 10 * log10(|X| / len(s)), where X is
    element [i] of the centred [n]-point transform of [s] as the
    specification writes it; the divisor is the count of the samples, not the
    window length. *)
Theorem find_fft_elementwise (s : list complex) (n : Z) :
  s <> [] -> (1 <= n)%Z ->
  exists out,
    find_fft s n = Ok out /\
    length out = Z.to_nat n /\
    forall i, (i < Z.to_nat n)%nat ->
      nth i out NaN = Spec.spectrum_at s (Z.to_nat n) i.
Proof.
  intros _ Hn. rewrite find_fft_ok by exact Hn.
  set (m := Z.to_nat n).
  assert (Hm : (0 < m)%nat) by (unfold m; lia).
  assert (Hlen : length (np.fft.dft (np.fft.fit s m)) = m)
    by (rewrite dft_length; apply fit_length).
  eexists. split; [reflexivity|]. split.
  - rewrite length_map, fftshift_length. exact Hlen.
  - intros i Hi. unfold Spec.spectrum_at.
    rewrite (nth_indep _ NaN
               (Spec.decibel (Cplx.modulus Cplx.zero) (length s)))
      by (rewrite length_map, fftshift_length, Hlen; exact Hi).
    rewrite (map_nth (fun z => Spec.decibel (Cplx.modulus z) (length s))).
    rewrite fftshift_nth by (rewrite Hlen; exact Hi).
    rewrite Hlen, dft_nth.
    + rewrite bin_fit. reflexivity.
    + rewrite fit_length. unfold Spec.centred.
      apply Nat.mod_upper_bound. lia.
Qed.

Lemma find_fft_elementwise_witness :
  exists out,
    find_fft (map Cplx.of_real [1]%R) 2 = Ok out /\
    length out = Z.to_nat 2 /\
    forall i, (i < Z.to_nat 2)%nat ->
      nth i out NaN = Spec.spectrum_at (map Cplx.of_real [1]%R) (Z.to_nat 2) i.
Proof. apply find_fft_elementwise; [discriminate | lia]. Defined.

(** ** The spectrum: scaling, padding, centring *)

(** C4, as the specification has it, fails: scaling the one sample 1 by 10
    in a window of 1 moves the result from 0 to 10 decibels, not to
    0 + 20 * log10(10) = 20. *)
Lemma find_fft_scaled_not_20_log10 :
  ~ (forall out out',
       find_fft (map Cplx.of_real [1]%R) 1 = Ok out ->
       find_fft (map (Cplx.scale 10) (map Cplx.of_real [1]%R)) 1 = Ok out' ->
       nth 0 out' NaN = np.add_1 (nth 0 out NaN) (Fin (20 * Rlog10 10))).
Proof.
  intros H. specialize (H _ _ find_fft_unit find_fft_ten).
  simpl in H. rewrite Rlog10_10 in H. injection H as H. lra.
Qed.

(** C4, amended: for samples [s] that are not empty, a window length
    [n >= 1] and a constant [c > 0], every element of [find_fft(c*s, n)] is
    the element of [find_fft(s, n)] at the same index plus 10 * log10(c)
    decibels (an element at -inf stays at -inf). *)
Theorem find_fft_scaled (c : R) (s : list complex) (n : Z) :
  (0 < c)%R -> s <> [] -> (1 <= n)%Z ->
  exists out out',
    find_fft s n = Ok out /\
    find_fft (map (Cplx.scale c) s) n = Ok out' /\
    length out = Z.to_nat n /\ length out' = Z.to_nat n /\
    forall i, (i < Z.to_nat n)%nat ->
      nth i out' NaN = np.add_1 (nth i out NaN) (Fin (10 * Rlog10 c)).
Proof.
  intros Hc Hs Hn. rewrite !find_fft_ok by exact Hn.
  eexists; eexists. split; [reflexivity|]. split; [reflexivity|].
  rewrite fit_scale, dft_scale, fftshift_map, length_map, map_map.
  rewrite !length_map, fftshift_length, dft_length, fit_length.
  split; [reflexivity|]. split; [reflexivity|].
  intros i Hi.
  set (a := np.fft.fftshift _).
  assert (Hlen : (0 < length s)%nat) by (destruct s; [congruence|simpl; lia]).
  assert (Hla : length a = Z.to_nat n)
    by (unfold a; rewrite fftshift_length, dft_length, fit_length; reflexivity).
  rewrite (nth_indep _ NaN
             (Spec.decibel (Cplx.modulus (Cplx.scale c Cplx.zero)) (length s)))
    by (rewrite length_map, Hla; exact Hi).
  rewrite (nth_indep (map _ a) NaN
             (Spec.decibel (Cplx.modulus Cplx.zero) (length s)))
    by (rewrite length_map, Hla; exact Hi).
  rewrite (map_nth (fun z => Spec.decibel (Cplx.modulus (Cplx.scale c z)) _)).
  rewrite (map_nth (fun z => Spec.decibel (Cplx.modulus z) _)).
  rewrite modulus_scale by lra.
  apply decibel_scale; [exact Hc|apply modulus_nonneg|exact Hlen].
Qed.

Lemma find_fft_scaled_witness :
  exists out out',
    find_fft (map Cplx.of_real [1; 2]%R) 4 = Ok out /\
    find_fft (map (Cplx.scale 3) (map Cplx.of_real [1; 2]%R)) 4 = Ok out' /\
    length out = Z.to_nat 4 /\ length out' = Z.to_nat 4 /\
    forall i, (i < Z.to_nat 4)%nat ->
      nth i out' NaN = np.add_1 (nth i out NaN) (Fin (10 * Rlog10 3)).
Proof. apply find_fft_scaled; [lra | discriminate | lia]. Defined.

(** C5: for samples [s] that are not empty and a window length [N] above
    their count, the sized transform is the transform of [s] padded with
    zeros to length [N], and [find_fft(s, N)] is the reference computed from
    the samples padded by hand. *)
Theorem find_fft_zero_padding (s : list complex) (N : Z) :
  s <> [] -> (Z.of_nat (length s) < N)%Z ->
  np.fft.fft s N = np.fft.fft_default (Spec.zero_pad s (Z.to_nat N)) /\
  np.fft.fft s N = Ok (np.fft.dft (Spec.zero_pad s (Z.to_nat N))) /\
  find_fft s N = Ok (Spec.padded_reference s (Z.to_nat N)).
Proof.
  intros _ HN.
  assert (Hle : (length s <= Z.to_nat N)%nat) by lia.
  assert (Hpad : length (Spec.zero_pad s (Z.to_nat N)) = Z.to_nat N).
  { unfold Spec.zero_pad. rewrite length_app, repeat_length. lia. }
  assert (Hfit : np.fft.fit s (Z.to_nat N) = Spec.zero_pad s (Z.to_nat N))
    by (apply fit_pad; exact Hle).
  assert (Hself : np.fft.fit (Spec.zero_pad s (Z.to_nat N)) (Z.to_nat N)
                  = Spec.zero_pad s (Z.to_nat N)).
  { unfold np.fft.fit. rewrite Hpad, Nat.eqb_refl. reflexivity. }
  split; [|split].
  - unfold np.fft.fft_default. rewrite Hpad.
    rewrite !fft_ok by lia. rewrite Nat2Z.id, Hfit, Hself. reflexivity.
  - rewrite fft_ok by lia. rewrite Hfit. reflexivity.
  - rewrite find_fft_ok by lia. rewrite Hfit. reflexivity.
Qed.

Lemma find_fft_zero_padding_witness :
  find_fft (map Cplx.of_real [1; 2; 3]%R) 8
  = Ok (Spec.padded_reference (map Cplx.of_real [1; 2; 3]%R) (Z.to_nat 8)).
Proof.
  apply (find_fft_zero_padding (map Cplx.of_real [1; 2; 3]%R) 8);
    [discriminate | simpl; lia].
Defined.

(** C6: for samples that are not empty and a window length [n >= 1], the
    element of the result at index [n // 2] comes from bin 0 of the
    transform, the zero-frequency component; and for the samples [1,1,1,1]
    in a window of 4 the result is [-inf, -inf, 0, -inf], whose largest value
    is at index 2. *)
Theorem find_fft_centre :
  (forall (s : list complex) (n : Z),
     s <> [] -> (1 <= n)%Z ->
     exists X out,
       np.fft.fft s n = Ok X /\
       find_fft s n = Ok out /\
       nth (Z.to_nat (n / 2)) out NaN
       = Spec.decibel (Cplx.modulus (nth 0 X Cplx.zero)) (length s)) /\
  (exists out,
     find_fft (map Cplx.of_real [1; 1; 1; 1]%R) 4 = Ok out /\
     out = [NInf; NInf; Fin 0; NInf] /\
     forall i, (i < 4)%nat -> i <> 2%nat ->
       np.lt (nth i out NaN) (nth 2 out NaN)).
Proof.
  split.
  - intros s n _ Hn. rewrite fft_ok, find_fft_ok by exact Hn.
    set (m := Z.to_nat n).
    assert (Hm : (0 < m)%nat) by (unfold m; lia).
    set (X := np.fft.dft (np.fft.fit s m)).
    assert (Hlen : length X = m)
      by (unfold X; rewrite dft_length; apply fit_length).
    assert (Hhalf : Z.to_nat (n / 2) = (m / 2)%nat).
    { unfold m. rewrite Z2Nat.inj_div by lia. reflexivity. }
    assert (Hlt : (m / 2 < m)%nat) by (apply Nat.div_lt; lia).
    exists X. eexists. split; [reflexivity|]. split; [reflexivity|].
    rewrite Hhalf.
    rewrite (nth_indep _ NaN
               (Spec.decibel (Cplx.modulus Cplx.zero) (length s)))
      by (rewrite length_map, fftshift_length, Hlen; exact Hlt).
    rewrite (map_nth (fun z => Spec.decibel (Cplx.modulus z) (length s))).
    rewrite fftshift_nth by (rewrite Hlen; exact Hlt).
    rewrite Hlen, centred_half by exact Hm. reflexivity.
  - eexists. split; [exact find_fft_constant|]. split; [reflexivity|].
    intros i Hi Hne.
    destruct i as [|[|[|[|i]]]]; simpl; try lia; exact I.
Qed.

Lemma find_fft_centre_witness :
  exists X out,
    np.fft.fft (map Cplx.of_real [1; 2; 3]%R) 5 = Ok X /\
    find_fft (map Cplx.of_real [1; 2; 3]%R) 5 = Ok out /\
    nth (Z.to_nat (5 / 2)) out NaN
    = Spec.decibel (Cplx.modulus (nth 0 X Cplx.zero))
        (length (map Cplx.of_real [1; 2; 3]%R)).
Proof. apply (proj1 find_fft_centre); [discriminate | lia]. Defined.

(** C7: for the samples [1,-1,1,-1] in a window of 4 the transform before
    centring is [0, 0, 4, 0], and [find_fft] returns 0 decibels, which is
    10 * log10(4/4), at index 0 and -inf at indices 1, 2 and 3. *)
Theorem find_fft_nyquist :
  np.fft.fft (map Cplx.of_real [1; -1; 1; -1]%R) 4
  = Ok (map Cplx.of_real [0; 0; 4; 0]%R) /\
  find_fft (map Cplx.of_real [1; -1; 1; -1]%R) 4
  = Ok [Fin 0; NInf; NInf; NInf] /\
  Fin 0 = Fin (10 * Rlog10 (4 / 4)).
Proof.
  split; [exact fft_alternating|]. split; [exact find_fft_alternating|].
  f_equal. replace (4 / 4)%R with 1%R by lra. rewrite Rlog10_1. ring.
Qed.

(** C8: for samples that are not empty and a window length [n >= 1],
    [find_fft] returns without raising, and at every index where the centred
    transform has magnitude exactly 0 the result is -inf. *)
Theorem find_fft_zero_magnitude (s : list complex) (n : Z) :
  s <> [] -> (1 <= n)%Z ->
  exists X out,
    np.fft.fft s n = Ok X /\
    find_fft s n = Ok out /\
    forall i, (i < Z.to_nat n)%nat ->
      Cplx.modulus (nth i (np.fft.fftshift X) Cplx.zero) = 0%R ->
      nth i out NaN = NInf.
Proof.
  intros Hs Hn. rewrite fft_ok, find_fft_ok by exact Hn.
  eexists. eexists. split; [reflexivity|]. split; [reflexivity|].
  intros i Hi Hzero.
  assert (Hlen : (0 < length s)%nat) by (destruct s; [congruence|simpl; lia]).
  rewrite (nth_indep _ NaN
             (Spec.decibel (Cplx.modulus Cplx.zero) (length s)))
    by (rewrite length_map, fftshift_length, dft_length, fit_length;
        exact Hi).
  rewrite (map_nth (fun z => Spec.decibel (Cplx.modulus z) (length s))).
  rewrite Hzero. apply decibel_zero, Hlen.
Qed.

Lemma find_fft_zero_magnitude_witness :
  exists out,
    find_fft (map Cplx.of_real [1; -1; 1; -1]%R) 4 = Ok out /\
    nth 1 out NaN = NInf.
Proof.
  destruct (find_fft_zero_magnitude (map Cplx.of_real [1; -1; 1; -1]%R) 4)
    as (X & out & HX & Hout & Hzero); [discriminate | lia |].
  exists out. split; [exact Hout|].
  apply Hzero; [simpl; lia|].
  rewrite fft_alternating in HX. injection HX as <-.
  simpl. apply modulus_zero.
Defined.

(** ** Plotting *)

Lemma Forall2_lookup {A B : Type} (P : A -> B -> Prop) (l : list A)
  (l' : list B) (i : nat) (a : A) :
  Forall2 P l l' -> nth_error l i = Some a ->
  exists b, nth_error l' i = Some b /\ P a b.
Proof.
  intros H. revert i. induction H as [|a0 b0 l l' Hab _ IH]; intros i Hi.
  - destruct i; discriminate Hi.
  - destruct i as [|i]; simpl in *.
    + injection Hi as <-. exists b0. split; [reflexivity|exact Hab].
    + apply IH, Hi.
Qed.

(** A series whose tag, abscissae and ordinates exist, the last two of one
    length, is drawn without an exception. *)
Lemma draw_series_ok (x y : list (list float64)) (line : list string)
  (i : nat) (tag : string) (xi yi : list float64) (log : list plt.call) :
  nth_error line i = Some tag ->
  nth_error x i = Some xi -> nth_error y i = Some yi ->
  length xi = length yi ->
  exists log', draw_series x y line i log = (log', Ok tt).
Proof.
  intros Htag Hx Hy Hlen.
  apply Nat.eqb_eq in Hlen.
  unfold draw_series, plt.bind, plt.getitem, plt.ax_plot, plt.ax_stem,
    plt.ret, plt.emit.
  rewrite Htag, Hx, Hy, Hlen.
  destruct (String.eqb tag "continuous"); [eexists; reflexivity|].
  destruct (String.eqb tag "discrete"); [eexists; reflexivity|].
  destruct (String.eqb tag "dash"); eexists; reflexivity.
Qed.

(** With a tag for every series the loop of [plot_timeseries] runs through. *)
Lemma for_range_draw_ok (x y : list (list float64)) (line : list string) :
  Forall2 (fun xi yi => length xi = length yi) x y ->
  forall (k st : nat) (log : list plt.call),
    (st + k <= length x)%nat -> (st + k <= length line)%nat ->
    exists log',
      plt.for_each (seq st k) (draw_series x y line) log = (log', Ok tt).
Proof.
  intros Hwf. induction k as [|k IH]; intros st log Hx Hl; simpl.
  - eexists. reflexivity.
  - destruct (nth_error line st) as [tag|] eqn:Htag;
      [|apply nth_error_None in Htag; lia].
    destruct (nth_error x st) as [xi|] eqn:Hxi;
      [|apply nth_error_None in Hxi; lia].
    destruct (Forall2_lookup _ _ _ _ _ Hwf Hxi) as (yi & Hyi & Hlen).
    destruct (draw_series_ok x y line st tag xi yi log Htag Hxi Hyi Hlen)
      as [log1 H1].
    unfold plt.bind. rewrite H1. apply IH; lia.
Qed.

(** The other side of C9: with as many tags as series, and every series
    given abscissae and ordinates of one length, [plot_timeseries] returns. *)
Lemma plot_timeseries_returns (title : string) (x y : list (list float64))
  (line : list string) :
  Forall2 (fun xi yi => length xi = length yi) x y ->
  (length x <= length line)%nat ->
  snd (plt.run (plot_timeseries title x y line)) = Ok tt.
Proof.
  intros Hwf Hlen. unfold plt.run, plot_timeseries, plt.for_range.
  unfold plt.bind at 1 2 3 4 5 6 7. simpl.
  unfold plt.bind.
  destruct (for_range_draw_ok x y line Hwf (length x) 0
              (timeseries_axes title)) as [log' H]; [lia | lia |].
  unfold timeseries_axes in H. rewrite H. reflexivity.
Qed.

(** C9: when [plot_timeseries] is given more than one series, each with
    abscissae and ordinates of one length, and [line] is left at its default
    ['continuous'], the lookup [line[i]] is past the end for every [i >= 1];
    the call draws the first series, raises IndexError at the second, and
    never reaches [plt.show()]. *)
Theorem plot_timeseries_default_line (title : string)
  (x y : list (list float64)) :
  (1 < length x)%nat ->
  Forall2 (fun xi yi => length xi = length yi) x y ->
  (forall i, (1 <= i)%nat ->
     plt.run (plt.getitem line_default i) = ([], Raise IndexError)) /\
  exists x0 y0,
    nth_error x 0 = Some x0 /\ nth_error y 0 = Some y0 /\
    plt.run (plot_timeseries title x y line_default)
    = (timeseries_axes title ++ [plt.plot x0 y0 plt.solid],
       Raise IndexError).
Proof.
  intros Hx Hwf. split.
  - intros i Hi. destruct i as [|i]; [lia|]. destruct i; reflexivity.
  - destruct Hwf as [|x0 y0 xs ys H0 Hrest]; [simpl in Hx; lia|].
    destruct Hrest as [|x1 y1 xs ys H1 _]; [simpl in Hx; lia|].
    exists x0, y0. split; [reflexivity|]. split; [reflexivity|].
    apply Nat.eqb_eq in H0.
    unfold plt.run, plot_timeseries, plt.for_range, draw_series, plt.bind,
      plt.getitem, plt.ax_plot, plt.emit, plt.ret, plt.raise, line_default.
    simpl. rewrite H0. reflexivity.
Qed.

Lemma plot_timeseries_default_line_witness :
  plt.run (plt.getitem line_default 1) = ([], Raise IndexError) /\
  snd (plt.run (plot_timeseries "two"
                  [[Fin 0; Fin 1]; [Fin 0; Fin 1]]
                  [[Fin 2; Fin 3]; [Fin 4; Fin 5]] line_default))
  = Raise IndexError.
Proof.
  destruct (plot_timeseries_default_line "two"
              [[Fin 0; Fin 1]; [Fin 0; Fin 1]]
              [[Fin 2; Fin 3]; [Fin 4; Fin 5]]) as [Hline Hrun].
  - simpl. lia.
  - repeat constructor.
  - split; [apply Hline; lia|].
    destruct Hrun as (x0 & y0 & _ & _ & ->). reflexivity.
Defined.

(** C10: when [plot_response] is called with [xlim] at None, and [w] and
    [h] of one length, the one call of [set_xlim] it makes is
    [set_xlim(0, fs/2)]: lower limit 0, upper limit the Nyquist frequency. *)
Theorem plot_response_default_xlim (fs : R) (w : list R) (h : list complex)
  (title : string) :
  length w = length h ->
  plt.run (plot_response fs w h title None)
  = ([plt.figure None; plt.add_subplot 111;
      plt.plot (map (fun wi => Fin (5 / 10 * fs * wi / PI)) w)
               (np.times 20 (np.log10 (np.abs h))) plt.solid;
      plt.set_ylim (-60) 20;
      plt.set_xlim 0 (fs / 2);
      plt.grid true; plt.set_xlabel "Frequency (Hz)";
      plt.set_ylabel "Gain (dB)"; plt.set_title title],
     Ok tt).
Proof.
  intros Hlen.
  unfold plt.run, plot_response, plt.bind, plt.ax_plot, plt.emit.
  unfold np.times, np.log10, np.abs. rewrite !length_map.
  apply Nat.eqb_eq in Hlen. rewrite Hlen. reflexivity.
Qed.

Lemma plot_response_default_xlim_witness :
  In (plt.set_xlim 0 (48000 / 2))
     (fst (plt.run (plot_response 48000 [0; 1]%R
                      [Cplx.of_real 1; Cplx.of_real 0] "lowpass" None))).
Proof.
  rewrite (plot_response_default_xlim 48000 [0; 1]%R
             [Cplx.of_real 1; Cplx.of_real 0] "lowpass" eq_refl).
  simpl. tauto.
Defined.

(** * Further properties *)

(** ** find_fft: which values it can return *)





Lemma fftshift_repeat (z : complex) (m : nat) :
  np.fft.fftshift (repeat z m) = repeat z m.
Proof.
  unfold np.fft.fftshift, np.fft.roll. rewrite repeat_length.
  assert (Hh : (m / 2 <= m)%nat) by (apply Nat.Div0.div_le_upper_bound; lia).
  set (h := (m / 2)%nat) in *. set (k := (m - h)%nat).
  assert (E : repeat z m = repeat z k ++ repeat z h)
    by (rewrite <- repeat_app; f_equal; unfold k; lia).
  rewrite E at 1 2.
  rewrite skipn_app, firstn_app, repeat_length, Nat.sub_diag.
  rewrite skipn_all2, firstn_all2 by (rewrite repeat_length; lia).
  simpl. rewrite app_nil_r, <- repeat_app. f_equal. unfold k. lia.
Qed.

(** X2: with no sample at all and any window length [n >= 1], [find_fft]
    does not raise: it returns [n] values, every one of them nan. *)
Theorem find_fft_no_sample_all_nan (n : Z) :
  (1 <= n)%Z -> find_fft [] n = Ok (repeat NaN (Z.to_nat n)).
Proof.
  intros Hn. rewrite find_fft_ok by exact Hn.
  rewrite fit_pad by (simpl; lia). simpl length. rewrite Nat.sub_0_r. simpl.
  rewrite dft_zeros, fftshift_repeat, map_repeat.
  rewrite modulus_zero, decibel_0_0. reflexivity.
Qed.

Lemma find_fft_no_sample_all_nan_witness :
  find_fft [] 3 = Ok [NaN; NaN; NaN].
Proof. apply (find_fft_no_sample_all_nan 3). lia. Defined.

(** ** find_fft: which samples it reads *)

Lemma fit_firstn (a : list complex) (m : nat) :
  np.fft.fit a m = np.fft.fit (firstn m a) m.
Proof.
  destruct (Nat.le_ge_cases (length a) m) as [H|H].
  - rewrite firstn_all2 by exact H. reflexivity.
  - rewrite fit_crop by exact H.
    unfold np.fft.fit. rewrite length_firstn, Nat.min_l by exact H.
    rewrite Nat.eqb_refl. reflexivity.
Qed.

(** X3: [find_fft] reads the samples only through their count and the first
    [n_window] of them: two sample sequences of one length that agree on
    their first [n_window] elements give the same result. *)
Theorem find_fft_reads_window (s s' : list complex) (n : Z) :
  length s = length s' ->
  firstn (Z.to_nat n) s = firstn (Z.to_nat n) s' ->
  find_fft s n = find_fft s' n.
Proof.
  intros Hlen Hfirst. destruct (Z.lt_ge_cases n 1) as [Hlt|Hge].
  - rewrite !find_fft_raise by exact Hlt. reflexivity.
  - rewrite !find_fft_ok by exact Hge.
    rewrite (fit_firstn s), (fit_firstn s'), Hfirst, Hlen. reflexivity.
Qed.

Lemma find_fft_reads_window_witness :
  find_fft (map Cplx.of_real [1; 2; 3; 4]%R) 2
  = find_fft (map Cplx.of_real [1; 2; 7; 9]%R) 2.
Proof. apply find_fft_reads_window; reflexivity. Defined.

(** ** find_fft: element by element *)

Lemma find_fft_nth (s : list complex) (n : Z) (out : list float64)
  (i : nat) :
  (1 <= n)%Z -> find_fft s n = Ok out -> (i < Z.to_nat n)%nat ->
  nth i out NaN = Spec.spectrum_at s (Z.to_nat n) i.
Proof.
  intros Hn Hout Hi. rewrite find_fft_ok in Hout by exact Hn.
  injection Hout as <-.
  set (m := Z.to_nat n) in *.
  assert (Hlen : length (np.fft.dft (np.fft.fit s m)) = m)
    by (rewrite dft_length; apply fit_length).
  unfold Spec.spectrum_at.
  rewrite (nth_indep _ NaN (Spec.decibel (Cplx.modulus Cplx.zero) (length s)))
    by (rewrite length_map, fftshift_length, Hlen; exact Hi).
  rewrite (map_nth (fun z => Spec.decibel (Cplx.modulus z) (length s))).
  rewrite fftshift_nth by (rewrite Hlen; exact Hi).
  rewrite Hlen, dft_nth.
  - rewrite bin_fit. reflexivity.
  - rewrite fit_length. unfold Spec.centred. apply Nat.mod_upper_bound. lia.
Qed.

(** ** find_fft: real samples give a mirrored result *)

Section Mirror.
Local Open Scope R_scope.





End Mirror.



(** ** find_fft: samples of modulus at most 1 stay at or below 0 dB *)

Section Ceiling.
Local Open Scope R_scope.






Lemma map_nth_seq {A B : Type} (g : A -> B) (a : list A) (d : A) :
  map (fun j => g (nth j a d)) (seq 0 (length a)) = map g a.
Proof.
  induction a as [|x a IH]; simpl.
  - reflexivity.
  - f_equal. rewrite <- seq_shift, map_map. exact IH.
Qed.









End Ceiling.


(** ** find_fft: a common phase does not show *)

Section Phase.
Local Open Scope R_scope.









End Phase.


(** ** find_fft: the centre measures the sum of the samples *)

Section CentreValue.
Local Open Scope R_scope.

Lemma twiddle_bin_0 (m j : nat) : np.fft.twiddle m j 0 = Cx 1 0.
Proof.
  unfold np.fft.twiddle, Cplx.expi. rewrite Nat.mul_0_r. simpl INR.
  replace (- (2 * PI * 0 / INR m)) with 0 by (unfold Rdiv; ring).
  rewrite cos_0, sin_0. reflexivity.
Qed.

Lemma mul_one_r (z : complex) : Cplx.mul z (Cx 1 0) = z.
Proof. destruct z; apply Cx_eq; simpl; ring. Qed.

Lemma bin_0 (a : list complex) :
  np.fft.bin a 0 = fold_right Cplx.add Cplx.zero a.
Proof.
  unfold np.fft.bin, Cplx.sum.
  transitivity
    (fold_right Cplx.add Cplx.zero
       (map (fun j => (fun z : complex => z) (nth j a Cplx.zero))
          (seq 0 (length a)))).
  - f_equal. apply map_ext. intros j.
    rewrite twiddle_bin_0. apply mul_one_r.
  - exact (f_equal (fold_right Cplx.add Cplx.zero)
             (eq_trans (map_nth_seq (fun z => z) a Cplx.zero) (map_id a))).
Qed.

Lemma fold_add_zeros (m : nat) :
  fold_right Cplx.add Cplx.zero (repeat Cplx.zero m) = Cplx.zero.
Proof.
  induction m as [|m IH]; simpl.
  - reflexivity.
  - rewrite IH. apply add_zero_r.
Qed.

Lemma fold_add_fit (s : list complex) (m : nat) :
  fold_right Cplx.add Cplx.zero (np.fft.fit s m)
  = fold_right Cplx.add Cplx.zero (firstn m s).
Proof.
  destruct (Nat.le_ge_cases (length s) m) as [H|H].
  - rewrite fit_pad, firstn_all2 by exact H.
    rewrite fold_right_app, fold_add_zeros. reflexivity.
  - rewrite fit_crop by exact H. reflexivity.
Qed.

End CentreValue.

(** X7: for a window length [n >= 1], the element of the result of
    [find_fft] at the centre index [n // 2] is 10 * log10(|S| / len(signal)),
    where S is the sum of the first [n] samples (of all of them when there
    are fewer). *)
Theorem find_fft_centre_is_sum (s : list complex) (n : Z) :
  (1 <= n)%Z ->
  exists out,
    find_fft s n = Ok out /\
    nth (Z.to_nat n / 2) out NaN
    = Spec.decibel
        (Cplx.modulus
           (fold_right Cplx.add Cplx.zero (firstn (Z.to_nat n) s)))
        (length s).
Proof.
  intros Hn.
  destruct (find_fft s n) as [out|e] eqn:Hout;
    [|rewrite find_fft_ok in Hout by exact Hn; discriminate Hout].
  exists out. split; [reflexivity|].
  set (m := Z.to_nat n) in *.
  assert (Hm : (0 < m)%nat) by (unfold m; lia).
  rewrite (find_fft_nth s n out) by (try assumption; apply Nat.div_lt; lia).
  fold m. unfold Spec.spectrum_at.
  rewrite centred_half by exact Hm.
  rewrite <- bin_fit, bin_0, fold_add_fit. reflexivity.
Qed.

Lemma find_fft_centre_is_sum_witness :
  exists out,
    find_fft (map Cplx.of_real [1; -1; 5]%R) 2 = Ok out /\
    nth (Z.to_nat 2 / 2) out NaN
    = Spec.decibel
        (Cplx.modulus
           (fold_right Cplx.add Cplx.zero
              (firstn (Z.to_nat 2) (map Cplx.of_real [1; -1; 5]%R))))
        (length (map Cplx.of_real [1; -1; 5]%R)).
Proof. apply find_fft_centre_is_sum. lia. Defined.

(** ** plot_timeseries: what is drawn, and when it fails *)

Lemma skipn_lookup {A : Type} (l : list A) (i : nat) (a : A) :
  nth_error l i = Some a -> skipn i l = a :: skipn (S i) l.
Proof.
  revert i. induction l as [|b l IH]; intros [|i] H; simpl in *;
    try discriminate.
  - injection H as ->. reflexivity.
  - apply IH, H.
Qed.









Lemma draw_series_unknown (x y : list (list float64)) (line : list string)
  (i : nat) (tag : string) (log : list plt.call) :
  nth_error line i = Some tag -> Drawn.known_tag tag = false ->
  draw_series x y line i log = (log, Ok tt).
Proof.
  intros Htag Hun. unfold Drawn.known_tag in Hun.
  apply orb_false_iff in Hun. destruct Hun as [Hun Hdash].
  apply orb_false_iff in Hun. destruct Hun as [Hcont Hdisc].
  unfold draw_series, plt.bind, plt.getitem, plt.ret.
  rewrite Htag, Hcont, Hdisc, Hdash. reflexivity.
Qed.

Lemma timeseries_loop_unknown (x y : list (list float64))
  (line : list string) :
  Forall (fun tag => Drawn.known_tag tag = false) line ->
  forall (k st : nat) (log : list plt.call),
    (st + k <= length line)%nat ->
    plt.for_each (seq st k) (draw_series x y line) log = (log, Ok tt).
Proof.
  intros Hun. induction k as [|k IH]; intros st log Hk; simpl.
  - reflexivity.
  - destruct (nth_error line st) as [tag|] eqn:Htag;
      [|apply nth_error_None in Htag; lia].
    assert (Htagun : Drawn.known_tag tag = false).
    { rewrite Forall_forall in Hun. apply Hun.
      eapply nth_error_In, Htag. }
    unfold plt.bind.
    rewrite (draw_series_unknown x y line st tag log Htag Htagun).
    apply IH. lia.
Qed.

(** X10: a tag of [plot_timeseries] that is none of 'continuous',
    'discrete' and 'dash' (the comparison is exact, so 'Continuous' is one)
    draws nothing and raises nothing.  When no tag is known and there are at
    least as many tags as series, the call returns with the axes set-up and
    [plt.show()] alone, whatever [y] holds: the data are not read. *)
Theorem plot_timeseries_unknown_tags (title : string)
  (x y : list (list float64)) (line : list string) :
  Forall (fun tag => Drawn.known_tag tag = false) line ->
  (length x <= length line)%nat ->
  plt.run (plot_timeseries title x y line)
  = (timeseries_axes title ++ [plt.show], Ok tt).
Proof.
  intros Hun Hlen. unfold plt.run, plot_timeseries, plt.for_range.
  unfold plt.bind at 1 2 3 4 5 6 7. simpl.
  unfold plt.bind.
  rewrite (timeseries_loop_unknown x y line Hun (length x) 0) by lia.
  reflexivity.
Qed.

Lemma plot_timeseries_unknown_tags_witness :
  plt.run (plot_timeseries "none" [[Fin 0; Fin 1]] [] ["Continuous"%string])
  = (timeseries_axes "none" ++ [plt.show], Ok tt).
Proof.
  apply plot_timeseries_unknown_tags.
  - repeat constructor.
  - simpl. lia.
Defined.

(** ** plot_response: axis, errors, gain *)

Section Response.
Local Open Scope R_scope.

Lemma gain_length (h : list complex) :
  length (np.times 20 (np.log10 (np.abs h))) = length h.
Proof. unfold np.times, np.log10, np.abs. rewrite !length_map. reflexivity. Qed.

Lemma plot_response_run (fs : R) (w : list R) (h : list complex)
  (title : string) (xlim : option R) :
  length w = length h ->
  plt.run (plot_response fs w h title xlim)
  = ([plt.figure None; plt.add_subplot 111;
      plt.plot (map (fun wi => Fin (5 / 10 * fs * wi / PI)) w)
               (np.times 20 (np.log10 (np.abs h))) plt.solid;
      plt.set_ylim (-60) 20;
      plt.set_xlim 0 (match xlim with None => fs / 2 | Some v => v end);
      plt.grid true; plt.set_xlabel "Frequency (Hz)";
      plt.set_ylabel "Gain (dB)"; plt.set_title title],
     Ok tt).
Proof.
  intros Hlen.
  unfold plt.run, plot_response, plt.bind, plt.ax_plot, plt.emit.
  rewrite gain_length, length_map.
  apply Nat.eqb_eq in Hlen. rewrite Hlen. reflexivity.
Qed.



(** X12: when [w] and [h] differ in length, [plot_response] raises
    ValueError at [ax.plot]: the figure and its axes exist, and no limit,
    grid, label or title has been set. *)
Theorem plot_response_length_mismatch (fs : R) (w : list R)
  (h : list complex) (title : string) (xlim : option R) :
  length w <> length h ->
  plt.run (plot_response fs w h title xlim)
  = ([plt.figure None; plt.add_subplot 111], Raise ValueError).
Proof.
  intros Hlen.
  unfold plt.run, plot_response, plt.bind, plt.ax_plot, plt.emit, plt.raise.
  rewrite gain_length, length_map.
  apply Nat.eqb_neq in Hlen. rewrite Hlen. reflexivity.
Qed.

Lemma gain_scale (c : R) (z : complex) :
  0 < c ->
  np.times_1 20 (np.log10_1 (Fin (Cplx.modulus (Cplx.scale c z))))
  = np.add_1 (np.times_1 20 (np.log10_1 (Fin (Cplx.modulus z))))
      (Fin (20 * Rlog10 c)).
Proof.
  intros Hc. rewrite modulus_scale by lra.
  destruct (modulus_nonneg z) as [Hm|<-].
  - rewrite !log10_1_pos by nra. rewrite Rlog10_mult by assumption.
    simpl. f_equal. ring.
  - replace (c * 0) with 0 by ring. rewrite log10_1_zero.
    rewrite times_1_ninf by lra. reflexivity.
Qed.

(** X13: in [plot_response] a response scaled by a constant [c > 0] is
    drawn over the same abscissae, with every gain moved by
    20 * log10(c) decibels (a gain at -inf stays at -inf). *)
Theorem plot_response_gain_scales (c fs : R) (w : list R)
  (h : list complex) (title : string) (xlim : option R) :
  0 < c -> length w = length h ->
  exists xs ys ys',
    In (plt.plot xs ys plt.solid)
       (fst (plt.run (plot_response fs w h title xlim))) /\
    In (plt.plot xs ys' plt.solid)
       (fst (plt.run
               (plot_response fs w (map (Cplx.scale c) h) title xlim))) /\
    length ys = length h /\ length ys' = length h /\
    forall i, (i < length h)%nat ->
      nth i ys' NaN = np.add_1 (nth i ys NaN) (Fin (20 * Rlog10 c)).
Proof.
  intros Hc Hlen.
  rewrite !plot_response_run by (rewrite ?length_map; exact Hlen).
  eexists. eexists. eexists. split; [|split; [|split; [|split]]].
  - simpl. right. right. left. reflexivity.
  - simpl. right. right. left. reflexivity.
  - apply gain_length.
  - rewrite gain_length. apply length_map.
  - intros i Hi. unfold np.times, np.log10, np.abs. rewrite !map_map.
    set (g := fun z => np.times_1 20 (np.log10_1 (Fin (Cplx.modulus z)))).
    rewrite (nth_indep (map (fun z => g (Cplx.scale c z)) h) NaN
               (g (Cplx.scale c Cplx.zero)))
      by (rewrite length_map; exact Hi).
    rewrite (nth_indep (map g h) NaN (g Cplx.zero))
      by (rewrite length_map; exact Hi).
    rewrite (map_nth (fun z => g (Cplx.scale c z))), (map_nth g).
    apply gain_scale, Hc.
Qed.

End Response.


Lemma plot_response_length_mismatch_witness :
  plt.run (plot_response 8000 [0; 1]%R [Cplx.of_real 1] "short" None)
  = ([plt.figure None; plt.add_subplot 111], Raise ValueError).
Proof. apply plot_response_length_mismatch. simpl. lia. Defined.

Lemma plot_response_gain_scales_witness :
  exists xs ys ys',
    In (plt.plot xs ys plt.solid)
       (fst (plt.run (plot_response 8000 [0; 1]%R
                        [Cplx.of_real 1; Cplx.of_real 0] "gain" None))) /\
    In (plt.plot xs ys' plt.solid)
       (fst (plt.run
               (plot_response 8000 [0; 1]%R
                  (map (Cplx.scale 2) [Cplx.of_real 1; Cplx.of_real 0])
                  "gain" None))) /\
    length ys = 2%nat /\ length ys' = 2%nat /\
    forall i, (i < 2)%nat ->
      nth i ys' NaN = np.add_1 (nth i ys NaN) (Fin (20 * Rlog10 2)).
Proof.
  apply (plot_response_gain_scales 2 8000 [0; 1]%R
           [Cplx.of_real 1; Cplx.of_real 0] "gain" None);
    [lra | reflexivity].
Defined.

(** ** plot_fft: what is drawn, and when it fails *)

Lemma half_le (m : nat) : (m / 2 <= m)%nat.
Proof. apply Nat.Div0.div_le_upper_bound. lia. Qed.

(** The two slices of one spectrum have one length exactly when the
    spectrum and its frequencies do. *)
Lemma half_slices_length (f s : list float64) :
  length (skipn (length f / 2) f) = length (skipn (length f / 2) s)
  <-> length f = length s.
Proof.
  rewrite !length_skipn. pose proof (half_le (length f)) as Hh.
  split; [|intros ->; reflexivity].
  intros H. destruct (Nat.eq_dec (length f) 0) as [H0|H0].
  - rewrite H0 in *. simpl in H. lia.
  - assert (length f / 2 < length f)%nat by (apply Nat.div_lt; lia). lia.
Qed.

Lemma draw_spectrum_run (freqs fft_signal : list (list float64))
  (label : option (list string)) (i : nat) (f s : list float64)
  (name : option string) (log : list pyplot.call) :
  nth_error freqs i = Some f -> nth_error fft_signal i = Some s ->
  length f = length s ->
  match label with
  | None => name = None
  | Some names => nth_error names i = name /\ name <> None
  end ->
  draw_spectrum freqs fft_signal label i log
  = (log ++ [Drawn.spectrum_call f s name], Ok tt).
Proof.
  intros Hf Hs Hlen Hname.
  assert (Hcheck : Nat.eqb (length (skipn (length f / 2) f))
                     (length (skipn (length f / 2) s)) = true)
    by (apply Nat.eqb_eq, half_slices_length, Hlen).
  unfold draw_spectrum, Drawn.spectrum_call, Drawn.upper_half, pyplot.bind,
    pyplot.getitem, pyplot.ax_plot, pyplot.ret, pyplot.emit.
  destruct label as [names|].
  - destruct Hname as [Hn Hsome]. destruct name as [l|]; [|congruence].
    rewrite Hf, Hs, Hn, Hcheck, <- Hlen. reflexivity.
  - subst name. rewrite Hf, Hs, Hcheck, <- Hlen. reflexivity.
Qed.

Lemma fft_loop_unlabelled (freqs fft_signal : list (list float64)) :
  Forall2 (fun f s => length f = length s) freqs fft_signal ->
  forall (k st : nat) (log : list pyplot.call),
    (st + k = length freqs)%nat ->
    pyplot.for_each (seq st k) (draw_spectrum freqs fft_signal None) log
    = (log ++ Drawn.spectrum_calls (skipn st freqs) (skipn st fft_signal)
                None,
       Ok tt).
Proof.
  intros Hwf. induction k as [|k IH]; intros st log Hk.
  - rewrite skipn_all2 by lia. simpl. rewrite app_nil_r. reflexivity.
  - destruct (nth_error freqs st) as [f|] eqn:Hf;
      [|apply nth_error_None in Hf; lia].
    destruct (Forall2_lookup _ _ _ _ _ Hwf Hf) as (s & Hs & Hlen).
    rewrite (skipn_lookup freqs st f Hf), (skipn_lookup fft_signal st s Hs).
    cbn [pyplot.for_each seq]. unfold pyplot.bind at 1.
    rewrite (draw_spectrum_run freqs fft_signal None st f s None log
               Hf Hs Hlen eq_refl).
    rewrite IH by lia. simpl Drawn.spectrum_calls.
    rewrite <- app_assoc. reflexivity.
Qed.

Lemma fft_loop_labelled (freqs fft_signal : list (list float64))
  (names : list string) :
  Forall2 (fun f s => length f = length s) freqs fft_signal ->
  forall (k st : nat) (log : list pyplot.call),
    (st + k = length freqs)%nat -> (st <= length names)%nat ->
    pyplot.for_each (seq st k) (draw_spectrum freqs fft_signal (Some names))
      log
    = (log ++ Drawn.spectrum_calls (skipn st freqs) (skipn st fft_signal)
                (Some (skipn st names)),
       if Nat.leb (length freqs) (length names) then Ok tt
       else Raise IndexError).
Proof.
  intros Hwf. induction k as [|k IH]; intros st log Hk Hst.
  - rewrite skipn_all2 by lia. simpl. rewrite app_nil_r.
    destruct (Nat.leb_spec (length freqs) (length names));
      [reflexivity|lia].
  - destruct (nth_error freqs st) as [f|] eqn:Hf;
      [|apply nth_error_None in Hf; lia].
    destruct (Forall2_lookup _ _ _ _ _ Hwf Hf) as (s & Hs & Hlen).
    rewrite (skipn_lookup freqs st f Hf), (skipn_lookup fft_signal st s Hs).
    cbn [pyplot.for_each seq]. unfold pyplot.bind at 1.
    destruct (nth_error names st) as [l|] eqn:Hl.
    + rewrite (draw_spectrum_run freqs fft_signal (Some names) st f s
                 (Some l) log Hf Hs Hlen)
        by (split; [exact Hl|discriminate]).
      assert (Hlt : (st < length names)%nat)
        by (apply nth_error_Some; congruence).
      rewrite IH by lia.
      rewrite (skipn_lookup names st l Hl). simpl Drawn.spectrum_calls.
      rewrite <- app_assoc. reflexivity.
    + assert (Hend : (length names <= st)%nat)
        by (apply nth_error_None; exact Hl).
      unfold draw_spectrum, pyplot.bind, pyplot.getitem, pyplot.raise,
        pyplot.ret.
      rewrite Hf, Hs, Hl.
      rewrite (skipn_all2 names) by exact Hend. simpl.
      rewrite app_nil_r.
      destruct (Nat.leb_spec (length freqs) (length names));
        [lia|reflexivity].
Qed.

Lemma plot_fft_run (freqs fft_signal : list (list float64)) (fs : R)
  (title : string) (label : option (list string)) :
  Forall2 (fun f s => length f = length s) freqs fft_signal ->
  pyplot.run (plot_fft freqs fft_signal fs title label)
  = if match label with
       | None => true
       | Some names => Nat.leb (length freqs) (length names)
       end
    then ([pyplot.common (plt.figure (Some (10, 4)%Z));
           pyplot.common plt.gca]
            ++ Drawn.spectrum_calls freqs fft_signal label
            ++ Drawn.fft_frame fs title,
          Ok tt)
    else ([pyplot.common (plt.figure (Some (10, 4)%Z));
           pyplot.common plt.gca]
            ++ Drawn.spectrum_calls freqs fft_signal label,
          Raise IndexError).
Proof.
  intros Hwf. unfold pyplot.run, plot_fft, pyplot.for_range.
  unfold pyplot.bind at 1 2. simpl.
  unfold pyplot.bind at 1.
  destruct label as [names|].
  - rewrite (fft_loop_labelled freqs fft_signal names Hwf (length freqs) 0)
      by lia.
    simpl skipn. destruct (Nat.leb (length freqs) (length names)).
    + unfold pyplot.bind, pyplot.emit, Drawn.fft_frame. simpl.
      repeat rewrite <- app_assoc. reflexivity.
    + reflexivity.
  - rewrite (fft_loop_unlabelled freqs fft_signal Hwf (length freqs) 0)
      by lia.
    simpl skipn. unfold pyplot.bind, pyplot.emit, Drawn.fft_frame. simpl.
    repeat rewrite <- app_assoc. reflexivity.
Qed.

(** X14: when every spectrum given to [plot_fft] is as long as its
    frequencies, and there is no label or at least one label for each, the
    call returns.  The figure holds, after its creation, one line for each
    spectrum, in order, made of the upper half of the frequencies and of the
    spectrum (from index [len // 2] on), labelled when there are labels;
    then the markers at [fs] and [fs/2], the grid, title and axis names, the
    x-axis limits 0 and 3000 whatever [fs] is, the legend, and
    [plt.show()]. *)
Theorem plot_fft_draws_upper_halves (freqs fft_signal : list (list float64))
  (fs : R) (title : string) (label : option (list string)) :
  Forall2 (fun f s => length f = length s) freqs fft_signal ->
  match label with
  | None => True
  | Some names => (length freqs <= length names)%nat
  end ->
  pyplot.run (plot_fft freqs fft_signal fs title label)
  = ([pyplot.common (plt.figure (Some (10, 4)%Z)); pyplot.common plt.gca]
       ++ Drawn.spectrum_calls freqs fft_signal label
       ++ Drawn.fft_frame fs title,
     Ok tt).
Proof.
  intros Hwf Hlabel. rewrite plot_fft_run by exact Hwf.
  destruct label as [names|]; [|reflexivity].
  destruct (Nat.leb_spec (length freqs) (length names)); [reflexivity|lia].
Qed.

Lemma plot_fft_draws_upper_halves_witness :
  pyplot.run (plot_fft [[Fin (-2); Fin (-1); Fin 0; Fin 1]]
                [[NInf; Fin (-3); Fin 0; Fin (-3)]] 8 "one"
                (Some ["tone"%string]))
  = ([pyplot.common (plt.figure (Some (10, 4)%Z)); pyplot.common plt.gca]
       ++ [pyplot.plot_labelled [Fin 0; Fin 1] [Fin 0; Fin (-3)] "tone"]
       ++ Drawn.fft_frame 8 "one",
     Ok tt).
Proof.
  apply (plot_fft_draws_upper_halves [[Fin (-2); Fin (-1); Fin 0; Fin 1]]
           [[NInf; Fin (-3); Fin 0; Fin (-3)]] 8 "one"
           (Some ["tone"%string])).
  - repeat constructor.
  - simpl. lia.
Defined.

(** X15: when every spectrum given to [plot_fft] is as long as its
    frequencies and there are labels, but fewer than spectra, the call
    raises IndexError: the spectra that have a label are drawn, and the
    markers, the legend and [plt.show()] are not reached. *)
Theorem plot_fft_short_of_labels (freqs fft_signal : list (list float64))
  (fs : R) (title : string) (names : list string) :
  Forall2 (fun f s => length f = length s) freqs fft_signal ->
  (length names < length freqs)%nat ->
  pyplot.run (plot_fft freqs fft_signal fs title (Some names))
  = ([pyplot.common (plt.figure (Some (10, 4)%Z)); pyplot.common plt.gca]
       ++ Drawn.spectrum_calls freqs fft_signal (Some names),
     Raise IndexError).
Proof.
  intros Hwf Hlen. rewrite plot_fft_run by exact Hwf.
  destruct (Nat.leb_spec (length freqs) (length names)); [lia|reflexivity].
Qed.

Lemma plot_fft_short_of_labels_witness :
  pyplot.run (plot_fft [[Fin 0; Fin 1]; [Fin 0; Fin 1]]
                [[Fin (-3); Fin 0]; [Fin 0; Fin (-3)]] 8 "two"
                (Some ["first"%string]))
  = ([pyplot.common (plt.figure (Some (10, 4)%Z)); pyplot.common plt.gca]
       ++ [pyplot.plot_labelled [Fin 1] [Fin 0] "first"],
     Raise IndexError).
Proof.
  apply (plot_fft_short_of_labels [[Fin 0; Fin 1]; [Fin 0; Fin 1]]
           [[Fin (-3); Fin 0]; [Fin 0; Fin (-3)]] 8 "two"
           ["first"%string]).
  - repeat constructor.
  - simpl. lia.
Defined.

Lemma fft_loop_mismatch (freqs fft_signal : list (list float64)) :
  length freqs = length fft_signal ->
  forall (k st : nat) (log : list pyplot.call),
    (st + k = length freqs)%nat ->
    (exists i f s,
       (st <= i)%nat /\ nth_error freqs i = Some f /\
       nth_error fft_signal i = Some s /\ length f <> length s) ->
    exists log',
      pyplot.for_each (seq st k) (draw_spectrum freqs fft_signal None) log
      = (log', Raise ValueError).
Proof.
  intros Hsame. induction k as [|k IH];
    intros st log Hk (i & f & s & Hi & Hf & Hs & Hne).
  - assert (i < length freqs)%nat by (apply nth_error_Some; congruence).
    lia.
  - destruct (nth_error freqs st) as [f0|] eqn:Hf0;
      [|apply nth_error_None in Hf0; lia].
    destruct (nth_error fft_signal st) as [s0|] eqn:Hs0;
      [|apply nth_error_None in Hs0; lia].
    cbn [pyplot.for_each seq]. unfold pyplot.bind at 1.
    destruct (Nat.eq_dec (length f0) (length s0)) as [Heq|Hdiff].
    + rewrite (draw_spectrum_run freqs fft_signal None st f0 s0 None log
                 Hf0 Hs0 Heq eq_refl).
      apply IH; [lia|]. exists i, f, s.
      split; [|tauto].
      destruct (Nat.eq_dec i st) as [->|Hist]; [|lia].
      congruence.
    + assert (Hcheck : Nat.eqb (length (skipn (length f0 / 2) f0))
                         (length (skipn (length f0 / 2) s0)) = false).
      { apply Nat.eqb_neq. intros Hc. apply Hdiff.
        apply half_slices_length, Hc. }
      unfold draw_spectrum, pyplot.bind, pyplot.getitem, pyplot.ax_plot,
        pyplot.ret, pyplot.raise.
      rewrite Hf0, Hs0, Hcheck. eexists. reflexivity.
Qed.

(** X16: the slices of [plot_fft] do not hide a length mismatch: when there
    are as many spectra as frequency arrays, no labels, and some spectrum
    differs in length from its frequencies, the call raises ValueError. *)
Theorem plot_fft_length_mismatch (freqs fft_signal : list (list float64))
  (fs : R) (title : string) :
  length freqs = length fft_signal ->
  (exists i f s,
     nth_error freqs i = Some f /\ nth_error fft_signal i = Some s /\
     length f <> length s) ->
  snd (pyplot.run (plot_fft freqs fft_signal fs title None))
  = Raise ValueError.
Proof.
  intros Hsame (i & f & s & Hf & Hs & Hne).
  unfold pyplot.run, plot_fft, pyplot.for_range.
  unfold pyplot.bind at 1 2. simpl.
  unfold pyplot.bind at 1.
  destruct (fft_loop_mismatch freqs fft_signal Hsame (length freqs) 0
              [pyplot.common (plt.figure (Some (10, 4)%Z));
               pyplot.common plt.gca]) as [log' Hloop].
  - lia.
  - exists i, f, s. split; [lia|tauto].
  - rewrite Hloop. reflexivity.
Qed.

Lemma plot_fft_length_mismatch_witness :
  snd (pyplot.run (plot_fft [[Fin 0; Fin 1; Fin 2; Fin 3]]
                     [[Fin 0; Fin (-3)]] 8 "cut" None))
  = Raise ValueError.
Proof.
  apply plot_fft_length_mismatch; [reflexivity|].
  exists 0%nat, [Fin 0; Fin 1; Fin 2; Fin 3], [Fin 0; Fin (-3)].
  split; [reflexivity|]. split; [reflexivity|]. simpl. lia.
Defined.

(** ** find_fft into plot_fft *)

(** X17: when the result of [find_fft] for a window length [n >= 1] is
    given to [plot_fft] with [n] frequencies, the call returns, and the line
    it draws has [n - n // 2] points: point [j] is
    10 * log10(|X_j| / len(signal)) for bin [j] of the transform.  So the
    line starts at the zero-frequency bin and runs over the bins of
    non-negative frequency, in order. *)
Theorem plot_fft_of_find_fft (s : list complex) (n : Z) (f : list float64)
  (fs : R) (title : string) :
  (1 <= n)%Z -> length f = Z.to_nat n ->
  exists out drawn,
    find_fft s n = Ok out /\
    pyplot.run (plot_fft [f] [out] fs title None)
    = ([pyplot.common (plt.figure (Some (10, 4)%Z)); pyplot.common plt.gca]
         ++ [pyplot.common (plt.plot (Drawn.upper_half f) drawn plt.solid)]
         ++ Drawn.fft_frame fs title,
       Ok tt) /\
    length drawn = (Z.to_nat n - Z.to_nat n / 2)%nat /\
    forall j, (j < Z.to_nat n - Z.to_nat n / 2)%nat ->
      nth j drawn NaN
      = Spec.decibel (Cplx.modulus (Spec.DFT (Z.to_nat n) s j)) (length s).
Proof.
  intros Hn Hf.
  destruct (find_fft s n) as [out|e] eqn:Hout;
    [|rewrite find_fft_ok in Hout by exact Hn; discriminate Hout].
  set (m := Z.to_nat n) in *.
  assert (Hlen : length out = m).
  { rewrite find_fft_ok in Hout by exact Hn. injection Hout as <-.
    rewrite length_map, fftshift_length, dft_length. apply fit_length. }
  pose proof (half_le m) as Hh.
  exists out, (Drawn.upper_half out). split; [reflexivity|].
  split; [|split].
  - rewrite plot_fft_run
      by (constructor; [rewrite Hf, Hlen; reflexivity|constructor]).
    reflexivity.
  - unfold Drawn.upper_half. rewrite length_skipn, Hlen. reflexivity.
  - intros j Hj. unfold Drawn.upper_half. rewrite nth_skipn, Hlen.
    rewrite (find_fft_nth s n out) by (try assumption; fold m; lia).
    fold m. unfold Spec.spectrum_at. do 3 f_equal.
    unfold Spec.centred.
    replace (m / 2 + j + (m - m / 2))%nat with (j + 1 * m)%nat by lia.
    rewrite Nat.Div0.mod_add. apply Nat.mod_small. lia.
Qed.

Lemma plot_fft_of_find_fft_witness :
  exists out drawn,
    find_fft (map Cplx.of_real [1; 1; 1; 1]%R) 4 = Ok out /\
    pyplot.run (plot_fft [[Fin (-2); Fin (-1); Fin 0; Fin 1]] [out] 4
                  "dc" None)
    = ([pyplot.common (plt.figure (Some (10, 4)%Z)); pyplot.common plt.gca]
         ++ [pyplot.common (plt.plot [Fin 0; Fin 1] drawn plt.solid)]
         ++ Drawn.fft_frame 4 "dc",
       Ok tt) /\
    length drawn = 2%nat.
Proof.
  destruct (plot_fft_of_find_fft (map Cplx.of_real [1; 1; 1; 1]%R) 4
              [Fin (-2); Fin (-1); Fin 0; Fin 1] 4 "dc")
    as (out & drawn & Hout & Hrun & Hlen & _); [lia | reflexivity |].
  exists out, drawn. split; [exact Hout|]. split; [exact Hrun|exact Hlen].
Defined.

(** ** find_fft: a single impulse gives a flat result *)

Section Impulse.
Local Open Scope R_scope.









End Impulse.

